(** * Crypto-Dashboard: the ingestion pipeline and its persistence layer

    A shallow embedding of

    - [services/crypto_service.py]   (CryptoService.fetch_top_10_cryptocurrencies),
    - [services/database_service.py] (DatabaseService),
    - [services/email_service.py]    (the two entry points, by their results),
    - [models.py]                    (the three tables and their column types),
    - [lambda_function.py]           (lambda_handler),

    followed by the properties of the pipeline: store / read-back, atomicity
    of a batch, timestamp groups, the failure paths of the handler, the audit
    log and the retention purge.

    Conventions.  A Python method that reads or writes the SQLAlchemy session
    is a computation in the monad [M]: a function of the [world] returning
    either a raised exception or a value, together with the world it leaves
    behind (an exception keeps the effects made before it, as in Python).
    What the outside decides (the wall clock, whether the database server
    answers, what the HTTP endpoint returns, whether SES accepts a message)
    is an explicit argument. *)

From Stdlib Require Import ZArith List String Ascii Bool Arith Lia.
From Stdlib Require Import Permutation Sorted.
Import ListNotations.

Local Open Scope string_scope.
Local Open Scope list_scope.
Local Open Scope Z_scope.

(* ================================================================== *)
(** * Python values *)
(* ================================================================== *)

(** A [datetime]: microseconds since [datetime.min]. *)
Definition datetime := Z.

(** A JSON number, kept as the decimal numeral of the payload:
    [dmant * 10 ^ (- dscale)].  Column types round and bound it below; the
    binary detour through Python's [float] is not modelled. *)
Record decimal := mkdec { dmant : Z; dscale : nat }.

Definition pow10 (n : nat) : Z := 10 ^ Z.of_nat n.

(** Numeric equality of two decimals ([Decimal('1.50') == Decimal('1.5')]). *)
Definition dec_eq (a b : decimal) : Prop :=
  dmant a * pow10 (dscale b) = dmant b * pow10 (dscale a).


(** The [int] literal [0]. *)
Definition py_zero : decimal := mkdec 0 0.

(** Truthiness of an optional number: [None] and zero are falsy. *)
Definition truthy_num (v : option decimal) : bool :=
  match v with
  | None => false
  | Some d => negb (dmant d =? 0)
  end.

(** [v or 0]. *)
Definition or_zero (v : option decimal) : option decimal :=
  if truthy_num v then v else Some py_zero.

(** Truthiness of an optional list: [None] and [[]] are falsy. *)
Definition truthy_list {A : Type} (v : option (list A)) : bool :=
  match v with
  | Some (_ :: _) => true
  | _ => false
  end.

(** [str.upper()] on ASCII text: the letters a to z are mapped, every other
    character is kept.  (On text outside ASCII Python does more: it maps the
    letters of other scripts, some of them to more than one character.) *)
Definition upper_ascii (c : ascii) : ascii :=
  let n := nat_of_ascii c in
  if ((97 <=? n) && (n <=? 122))%nat then ascii_of_nat (n - 32) else c.

Fixpoint upper (s : string) : string :=
  match s with
  | EmptyString => EmptyString
  | String c s' => String (upper_ascii c) (upper s')
  end.

(** Exceptions that the modelled code can see. *)
Inductive exn : Type :=
| RequestException   (* requests: connection, timeout, HTTP status, bad JSON *)
| PayloadError       (* KeyError / TypeError / AttributeError on the payload *)
| OperationalError   (* the database server does not answer *)
| IntegrityError     (* NOT NULL, primary key or foreign key violated *)
| DataError          (* value out of the column's range or width *)
| OverflowError.     (* timedelta / datetime arithmetic out of range *)

(* ================================================================== *)
(** * The records passed between the services *)
(* ================================================================== *)

(** One element of the array returned by [/coins/markets], at the schema the
    endpoint documents: three strings and nullable numbers. *)
Module Coin.
Record t := mk {
  id : string;
  name : string;
  symbol : string;
  current_price : option decimal;
  market_cap : option decimal;
  total_volume : option decimal;
  price_change_percentage_24h : option decimal;
  market_cap_rank : option Z;
  image : option string
}.
End Coin.

(** The dict built by [fetch_top_10_cryptocurrencies] for one coin and read
    by [store_crypto_data]. *)
Module Quote.
Record t := mk {
  id : string;
  name : string;
  symbol : string;
  price_usd : option decimal;
  market_cap_usd : option decimal;
  volume_24h_usd : option decimal;
  price_change_24h_percent : option decimal;
  market_cap_rank : option Z;
  image_url : option string
}.
End Quote.

(* ================================================================== *)
(** * models.py: tables and column types *)
(* ================================================================== *)

Module CryptoCurrency.
Record t := mk {
  id : string;               (* String(50), primary key *)
  name : string;             (* String(100), NOT NULL *)
  symbol : string;           (* String(10), NOT NULL *)
  created_at : datetime;
  updated_at : datetime
}.
End CryptoCurrency.

(** The surrogate key [id] of [crypto_data] and of [dashboard_updates] is
    read by no modelled operation; rows are kept in insertion order. *)
Module CryptoData.
Record t := mk {
  crypto_id : string;                    (* foreign key, NOT NULL *)
  price_usd : decimal;                   (* Numeric(20, 8), NOT NULL *)
  market_cap_usd : decimal;              (* Numeric(20, 2), NOT NULL *)
  volume_24h_usd : decimal;              (* Numeric(20, 2), NOT NULL *)
  price_change_24h_percent : decimal;    (* Numeric(10, 4), NOT NULL *)
  market_cap_rank : Z;                   (* Integer, NOT NULL *)
  timestamp : datetime                   (* NOT NULL *)
}.
End CryptoData.

(** The text produced by [json.dumps] on a list of quotes, represented by
    the list it encodes. *)
Inductive json_text : Type :=
| JsonOf (quotes : list Quote.t).

Definition json_dumps (top_10_data : list Quote.t) : json_text :=
  JsonOf top_10_data.

Module DashboardUpdate.
Record t := mk {
  update_timestamp : datetime;   (* default utcnow, NOT NULL *)
  status : string;               (* String(20), NOT NULL *)
  error_message : option string; (* Text *)
  email_sent : bool;             (* Boolean *)
  top_10_data : option json_text (* JSON *)
}.
End DashboardUpdate.

Record database := mkdb {
  cryptocurrencies : list CryptoCurrency.t;
  crypto_data : list CryptoData.t;
  dashboard_updates : list DashboardUpdate.t
}.

Definition empty_db : database := mkdb [] [] [].

(** ** Column coercions (PostgreSQL, the configured database) *)

(** Division rounding half away from zero, as PostgreSQL rounds [numeric]. *)
Definition round_half_away (m p : Z) : Z :=
  let q := Z.abs m / p in
  let r := Z.abs m mod p in
  Z.sgn m * (if p <=? 2 * r then q + 1 else q).

(** [Numeric(p, s)]: rescale to [s] fractional digits, reject a value that
    does not fit [p] digits in all. *)
Definition numeric (p s : nat) (d : decimal) : exn + decimal :=
  let m :=
    if (dscale d <=? s)%nat
    then dmant d * pow10 (s - dscale d)
    else round_half_away (dmant d) (pow10 (dscale d - s)) in
  if Z.abs m <? pow10 p then inr (mkdec m s) else inl DataError.

(** A NOT NULL column. *)
Definition not_null {A : Type} (v : option A) : exn + A :=
  match v with
  | Some a => inr a
  | None => inl IntegrityError
  end.

(** [String(n)], with lengths counted on ASCII text.  (PostgreSQL counts
    characters, and trims excess that consists of spaces only instead of
    refusing it.) *)
Definition varchar (n : nat) (s : string) : exn + string :=
  if (String.length s <=? n)%nat then inr s else inl DataError.

(** [Integer]: a signed 32-bit value. *)
Definition int4 (z : Z) : exn + Z :=
  if (- 2 ^ 31 <=? z) && (z <? 2 ^ 31) then inr z else inl DataError.

(** Sequencing of checks that may raise. *)
Definition bindE {A B : Type} (x : exn + A) (f : A -> exn + B) : exn + B :=
  match x with
  | inl e => inl e
  | inr a => f a
  end.

Notation "'check' x <- c ; k" := (bindE c (fun x => k))
  (at level 10, x name, c at level 100, k at level 200).

(* ================================================================== *)
(** * The SQLAlchemy session *)
(* ================================================================== *)

(** What a method has done inside the open transaction and not yet
    committed: objects added to the session, attribute writes on loaded
    objects, bulk deletes. *)
Inductive change : Type :=
| NewCryptoCurrency (id name symbol : string)
| SetCryptoCurrency (id name symbol : string) (updated_at : datetime)
| NewCryptoData (crypto_id : string)
    (price_usd market_cap_usd volume_24h_usd price_change_24h_percent : option decimal)
    (market_cap_rank : option Z) (timestamp : datetime)
| NewDashboardUpdate (status : string) (error_message : option string)
    (email_sent : bool) (top_10_data : option json_text)
| DeleteCryptoDataBefore (cutoff : datetime)
| DeleteDashboardUpdatesBefore (cutoff : datetime).

(** An outgoing notification requested from the EmailService, with whether
    it was dispatched. *)
Inductive notification : Type :=
| DailyDashboardEmail (crypto_data : list Quote.t) (sent : bool)
| ErrorNotification (error_message : string) (sent : bool).

Record world := mkworld {
  db : database;               (* committed rows *)
  tx : list change;            (* the open transaction *)
  outbox : list notification   (* calls made to the notifier, oldest first *)
}.

Definition M (A : Type) : Type := world -> (exn + A) * world.

Definition ret {A : Type} (a : A) : M A := fun w => (inr a, w).

Definition raise {A : Type} (e : exn) : M A := fun w => (inl e, w).

Definition bind {A B : Type} (m : M A) (f : A -> M B) : M B :=
  fun w =>
    match m w with
    | (inr a, w') => f a w'
    | (inl e, w') => (inl e, w')
    end.

(** [try: body  except Exception: handler]. *)
Definition try_except {A : Type} (body : M A) (handler : exn -> M A) : M A :=
  fun w =>
    match body w with
    | (inr a, w') => (inr a, w')
    | (inl e, w') => handler e w'
    end.

Definition lift {A : Type} (x : exn + A) : M A :=
  fun w => (x, w).

Declare Scope monad_scope.
Delimit Scope monad_scope with monad.
Notation "x <- c ;; k" := (bind c (fun x => k))
  (at level 61, c at next level, right associativity) : monad_scope.
Notation "c ;; k" := (bind c (fun _ => k))
  (at level 61, right associativity) : monad_scope.
Local Open Scope monad_scope.

(** What the outside decides during one call into the database: the two
    clock readings (the method's own [datetime.utcnow()] and the one taken
    for column defaults when the rows are written) and whether the server
    answers. *)
Record db_env := mkenv {
  utcnow : datetime;
  flush_utcnow : datetime;
  db_up : bool
}.

(** ** Writing one change into the tables *)

Definition has_currency (i : string) (cs : list CryptoCurrency.t) : bool :=
  existsb (fun c => String.eqb (CryptoCurrency.id c) i) cs.

(** The new row's [created_at] and [updated_at] are column defaults: one
    reading [now] stands for the two evaluations of [datetime.utcnow], which
    the model does not tell apart. *)
Definition insert_cryptocurrency (now : datetime) (i n s : string) (d : database)
  : exn + database :=
  check i' <- varchar 50 i;
  check n' <- varchar 100 n;
  check s' <- varchar 10 s;
  if has_currency i' (cryptocurrencies d) then inl IntegrityError
  else inr (mkdb (cryptocurrencies d ++ [CryptoCurrency.mk i' n' s' now now])
                 (crypto_data d) (dashboard_updates d)).

Definition update_cryptocurrency (i n s : string) (t : datetime) (d : database)
  : exn + database :=
  check n' <- varchar 100 n;
  check s' <- varchar 10 s;
  inr (mkdb (map (fun c =>
                    if String.eqb (CryptoCurrency.id c) i
                    then CryptoCurrency.mk (CryptoCurrency.id c) n' s'
                           (CryptoCurrency.created_at c) t
                    else c) (cryptocurrencies d))
            (crypto_data d) (dashboard_updates d)).

(** The row that an INSERT into [crypto_data] writes, once every column has
    taken its value. *)
Definition crypto_data_row (i : string) (p m v c : option decimal)
    (r : option Z) (t : datetime) : exn + CryptoData.t :=
  check p0 <- not_null p; check p' <- numeric 20 8 p0;
  check m0 <- not_null m; check m' <- numeric 20 2 m0;
  check v0 <- not_null v; check v' <- numeric 20 2 v0;
  check c0 <- not_null c; check c' <- numeric 10 4 c0;
  check r0 <- not_null r; check r' <- int4 r0;
  inr (CryptoData.mk i p' m' v' c' r' t).

Definition insert_crypto_data (i : string) (p m v c : option decimal)
    (r : option Z) (t : datetime) (d : database) : exn + database :=
  check row <- crypto_data_row i p m v c r t;
  if has_currency i (cryptocurrencies d)
  then inr (mkdb (cryptocurrencies d) (crypto_data d ++ [row])
                 (dashboard_updates d))
  else inl IntegrityError.

Definition insert_dashboard_update (now : datetime) (st : string)
    (err : option string) (sent : bool) (top : option json_text) (d : database)
  : exn + database :=
  check st' <- varchar 20 st;
  inr (mkdb (cryptocurrencies d) (crypto_data d)
            (dashboard_updates d ++ [DashboardUpdate.mk now st' err sent top])).

Definition apply_change (now : datetime) (d : database) (c : change)
  : exn + database :=
  match c with
  | NewCryptoCurrency i n s => insert_cryptocurrency now i n s d
  | SetCryptoCurrency i n s t => update_cryptocurrency i n s t d
  | NewCryptoData i p m v c r t => insert_crypto_data i p m v c r t d
  | NewDashboardUpdate st err sent top =>
      insert_dashboard_update now st err sent top d
  | DeleteCryptoDataBefore cutoff =>
      inr (mkdb (cryptocurrencies d)
                (filter (fun r => negb (CryptoData.timestamp r <? cutoff))
                        (crypto_data d))
                (dashboard_updates d))
  | DeleteDashboardUpdatesBefore cutoff =>
      inr (mkdb (cryptocurrencies d) (crypto_data d)
                (filter (fun u => negb (DashboardUpdate.update_timestamp u <? cutoff))
                        (dashboard_updates d)))
  end.

(** The changes of a transaction, written in the order they were made; the
    first one that is refused aborts the whole.  (SQLAlchemy sends the
    statements of one flush parents first; the methods below make their
    changes in such an order.) *)
Fixpoint flush (now : datetime) (d : database) (cs : list change)
  : exn + database :=
  match cs with
  | [] => inr d
  | c :: cs' => check d' <- apply_change now d c; flush now d' cs'
  end.

(** ** Session primitives *)

(** [db.session.add(obj)], an attribute write on a loaded object, or a bulk
    [query.delete()]: recorded in the open transaction. *)
Definition session_add (c : change) : M unit :=
  fun w => (inr tt, mkworld (db w) (tx w ++ [c]) (outbox w)).

(** [db.session.add_all(objs)]. *)
Definition session_add_all (cs : list change) : M unit :=
  fun w => (inr tt, mkworld (db w) (tx w ++ cs) (outbox w)).

(** [db.session.commit()]: all changes become durable, or none does and the
    exception is raised with the transaction still open. *)
Definition session_commit (env : db_env) : M unit :=
  fun w =>
    if db_up env then
      match flush (flush_utcnow env) (db w) (tx w) with
      | inr d' => (inr tt, mkworld d' [] (outbox w))
      | inl e => (inl e, w)
      end
    else (inl OperationalError, w).

(** [db.session.rollback()]: drops what the session holds; taken to succeed
    also when the server is away (there is then nothing to undo on it). *)
Definition session_rollback : M unit :=
  fun w => (inr tt, mkworld (db w) [] (outbox w)).

(** A SELECT: needs the server, reads the committed rows.  (No modelled
    query reads a table that its own open transaction has changed.) *)
Definition select {A : Type} (env : db_env) (q : database -> A) : M A :=
  fun w => if db_up env then (inr (q (db w)), w) else (inl OperationalError, w).

(* ================================================================== *)
(** * services/database_service.py *)
(* ================================================================== *)

(** The dict returned per row by [get_latest_top_10]. *)
Module LatestRow.
Record t := mk {
  crypto_id : string;
  name : string;
  symbol : string;
  price_usd : decimal;
  market_cap_usd : decimal;
  volume_24h_usd : decimal;
  price_change_24h_percent : decimal;
  market_cap_rank : Z;
  timestamp : datetime
}.
End LatestRow.

(** ** store_crypto_data *)

(** [CryptoCurrency.query.filter(CryptoCurrency.id.in_(ids)).all()], as the
    dict [existing_cryptos] of the rows found. *)
Definition query_existing (ids : list string) (d : database)
  : list CryptoCurrency.t :=
  filter (fun c => existsb (String.eqb (CryptoCurrency.id c)) ids)
         (cryptocurrencies d).

Definition new_crypto_data (crypto : Quote.t) (timestamp : datetime) : change :=
  NewCryptoData (Quote.id crypto) (Quote.price_usd crypto)
    (Quote.market_cap_usd crypto) (Quote.volume_24h_usd crypto)
    (Quote.price_change_24h_percent crypto) (Quote.market_cap_rank crypto)
    timestamp.

(** The [for crypto in crypto_list] loop, returning [new_crypto_data_list]. *)
Fixpoint store_loop (existing_cryptos : list CryptoCurrency.t)
    (timestamp : datetime) (crypto_list : list Quote.t)
    (new_crypto_data_list : list change) : M (list change) :=
  match crypto_list with
  | [] => ret new_crypto_data_list
  | crypto :: rest =>
      (if negb (has_currency (Quote.id crypto) existing_cryptos)
       then session_add (NewCryptoCurrency (Quote.id crypto)
                           (Quote.name crypto) (Quote.symbol crypto))
       else session_add (SetCryptoCurrency (Quote.id crypto)
                           (Quote.name crypto) (Quote.symbol crypto) timestamp)) ;;
      store_loop existing_cryptos timestamp rest
        (new_crypto_data_list ++ [new_crypto_data crypto timestamp])
  end.

Definition store_crypto_data (env : db_env) (crypto_list : list Quote.t)
  : M bool :=
  try_except
    (let timestamp := utcnow env in
     existing_cryptos <-
       select env (query_existing (map Quote.id crypto_list)) ;;
     new_crypto_data_list <-
       store_loop existing_cryptos timestamp crypto_list [] ;;
     session_add_all new_crypto_data_list ;;
     session_commit env ;;
     ret true)
    (fun _ => session_rollback ;; ret false).

(** ** get_latest_top_10 *)

(** [query(CryptoData.timestamp).order_by(desc(timestamp)).limit(1).scalar()]. *)
Definition latest_timestamp_query (d : database) : option datetime :=
  match map CryptoData.timestamp (crypto_data d) with
  | [] => None
  | t :: ts => Some (fold_left Z.max ts t)
  end.

(** The join of one [crypto_data] row with [cryptocurrencies] on
    [crypto_id == id]. *)
Definition join_currency (cs : list CryptoCurrency.t) (r : CryptoData.t)
  : list LatestRow.t :=
  map (fun c =>
         LatestRow.mk (CryptoData.crypto_id r) (CryptoCurrency.name c)
           (CryptoCurrency.symbol c) (CryptoData.price_usd r)
           (CryptoData.market_cap_usd r) (CryptoData.volume_24h_usd r)
           (CryptoData.price_change_24h_percent r)
           (CryptoData.market_cap_rank r) (CryptoData.timestamp r))
      (filter (fun c => String.eqb (CryptoData.crypto_id r) (CryptoCurrency.id c))
              cs).

(** [ORDER BY market_cap_rank]; rows of equal rank keep their order. *)
Fixpoint insert_by_rank (x : LatestRow.t) (l : list LatestRow.t)
  : list LatestRow.t :=
  match l with
  | [] => [x]
  | y :: l' =>
      if LatestRow.market_cap_rank x <=? LatestRow.market_cap_rank y
      then x :: y :: l'
      else y :: insert_by_rank x l'
  end.

Definition order_by_rank (l : list LatestRow.t) : list LatestRow.t :=
  fold_right insert_by_rank [] l.

Definition top_10_query (latest_timestamp : datetime) (d : database)
  : list LatestRow.t :=
  firstn 10
    (order_by_rank
       (flat_map (join_currency (cryptocurrencies d))
          (filter (fun r => CryptoData.timestamp r =? latest_timestamp)
                  (crypto_data d)))).

Definition get_latest_top_10 (env : db_env) : M (list LatestRow.t) :=
  try_except
    (latest_timestamp <- select env latest_timestamp_query ;;
     match latest_timestamp with
     | None => ret []
     | Some latest =>
         results <- select env (top_10_query latest) ;;
         ret results
     end)
    (fun _ => ret []).

(** ** log_dashboard_update *)

Definition log_dashboard_update (env : db_env) (status : string)
    (error_message : option string) (email_sent : bool)
    (top_10_data : option (list Quote.t)) : M bool :=
  try_except
    (let update_log :=
       NewDashboardUpdate status error_message email_sent
         (if truthy_list top_10_data then option_map json_dumps top_10_data
          else None) in
     session_add update_log ;;
     session_commit env ;;
     ret true)
    (fun _ => session_rollback ;; ret false).

(** ** cleanup_old_data *)

Definition usec_per_day : Z := 86400000000.

(** [datetime.max], in microseconds since [datetime.min]. *)
Definition datetime_max : Z := 3652059 * usec_per_day - 1.

(** [timedelta(days=n)]: at most 999999999 days either way. *)
Definition timedelta_days (n : Z) : exn + Z :=
  if (- 999999999 <=? n) && (n <=? 999999999) then inr (n * usec_per_day)
  else inl OverflowError.

(** [datetime - timedelta]: the result must be a [datetime]. *)
Definition datetime_sub (t delta : Z) : exn + datetime :=
  let r := t - delta in
  if (0 <=? r) && (r <=? datetime_max) then inr r else inl OverflowError.

(** [query(...).filter(...).delete(synchronize_session=False)]: the DELETE
    is sent at once, inside the open transaction; returns the row count. *)
Definition bulk_delete (env : db_env) (c : change) (count : database -> Z)
  : M Z :=
  n <- select env count ;;
  session_add c ;;
  ret n.

Definition cleanup_old_data (env : db_env) (days_to_keep : Z) : M bool :=
  try_except
    (cutoff_date <-
       lift (check delta <- timedelta_days days_to_keep;
             datetime_sub (utcnow env) delta) ;;
     deleted_crypto_data <-
       bulk_delete env (DeleteCryptoDataBefore cutoff_date)
         (fun d => Z.of_nat (List.length
            (filter (fun r => CryptoData.timestamp r <? cutoff_date)
                    (crypto_data d)))) ;;
     deleted_updates <-
       bulk_delete env (DeleteDashboardUpdatesBefore cutoff_date)
         (fun d => Z.of_nat (List.length
            (filter (fun u => DashboardUpdate.update_timestamp u <? cutoff_date)
                    (dashboard_updates d)))) ;;
     session_commit env ;;
     ret true)
    (fun _ => session_rollback ;; ret false).

(** ** get_last_update *)

(** The dict returned by [get_last_update]. *)
Module LastUpdate.
Record t := mk {
  timestamp : datetime;
  status : string;
  error_message : option string;
  email_sent : bool
}.
End LastUpdate.

(** The row with the greatest [update_timestamp] among [best :: rows]; of
    several with that timestamp (an order SQL leaves open) the one inserted
    first. *)
Fixpoint newest_update (best : DashboardUpdate.t)
    (rows : list DashboardUpdate.t) : DashboardUpdate.t :=
  match rows with
  | [] => best
  | u :: rows' =>
      newest_update
        (if DashboardUpdate.update_timestamp best <?
            DashboardUpdate.update_timestamp u
         then u else best) rows'
  end.

(** [DashboardUpdate.query.order_by(desc(update_timestamp)).first()]. *)
Definition last_update_query (d : database) : option DashboardUpdate.t :=
  match dashboard_updates d with
  | [] => None
  | u :: rows => Some (newest_update u rows)
  end.

Definition get_last_update (env : db_env) : M (option LastUpdate.t) :=
  try_except
    (last_update <- select env last_update_query ;;
     match last_update with
     | None => ret None
     | Some u =>
         ret (Some (LastUpdate.mk (DashboardUpdate.update_timestamp u)
                      (DashboardUpdate.status u)
                      (DashboardUpdate.error_message u)
                      (DashboardUpdate.email_sent u)))
     end)
    (fun _ => ret None).

(** ** get_historical_data *)

(** [float(x)] of a [Decimal]: the float nearest to it, represented by the
    decimal it comes from. *)
Inductive pyfloat : Type :=
| FloatOf (d : decimal).

(** One dict of the list returned by [get_historical_data]. *)
Module HistoryPoint.
Record t := mk {
  timestamp : datetime;
  price_usd : option pyfloat;
  market_cap_usd : option pyfloat;
  volume_24h_usd : option pyfloat;
  price_change_24h_percent : option pyfloat
}.
End HistoryPoint.

(** [float(x) if x else None]: a [Decimal] equal to zero is falsy. *)
Definition float_if_truthy (x : decimal) : option pyfloat :=
  if dmant x =? 0 then None else Some (FloatOf x).

(** [ORDER BY timestamp]; rows of equal timestamp keep their order. *)
Fixpoint insert_by_timestamp (x : CryptoData.t) (l : list CryptoData.t)
  : list CryptoData.t :=
  match l with
  | [] => [x]
  | y :: l' =>
      if CryptoData.timestamp x <=? CryptoData.timestamp y
      then x :: y :: l'
      else y :: insert_by_timestamp x l'
  end.

Definition order_by_timestamp (l : list CryptoData.t) : list CryptoData.t :=
  fold_right insert_by_timestamp [] l.

Definition history_query (crypto_id : string) (start_date : datetime)
    (d : database) : list CryptoData.t :=
  order_by_timestamp
    (filter (fun r => String.eqb (CryptoData.crypto_id r) crypto_id &&
                      (start_date <=? CryptoData.timestamp r))
            (crypto_data d)).

Definition history_point (data_point : CryptoData.t) : HistoryPoint.t :=
  HistoryPoint.mk (CryptoData.timestamp data_point)
    (float_if_truthy (CryptoData.price_usd data_point))
    (float_if_truthy (CryptoData.market_cap_usd data_point))
    (float_if_truthy (CryptoData.volume_24h_usd data_point))
    (float_if_truthy (CryptoData.price_change_24h_percent data_point)).

Definition get_historical_data (env : db_env) (crypto_id : string) (days : Z)
  : M (list HistoryPoint.t) :=
  try_except
    (start_date <-
       lift (check delta <- timedelta_days days;
             datetime_sub (utcnow env) delta) ;;
     results <- select env (history_query crypto_id start_date) ;;
     ret (map history_point results))
    (fun _ => ret []).

(* ================================================================== *)
(** * services/crypto_service.py *)
(* ================================================================== *)

(** The body of an HTTP response. *)
Inductive payload : Type :=
| NotJson                        (* [response.json()] raises *)
| OffSchema                      (* JSON on which the transformation loop
                                    raises: not an array of objects, a key
                                    missing, a symbol that is not a string *)
| CoinArray (data : list Coin.t).

(** What [requests.get] does. *)
Inductive http_result : Type :=
| RequestFailed                                  (* connection error, timeout *)
| Response (status_code : Z) (body : payload).

Definition raise_for_status (status_code : Z) : exn + unit :=
  if (400 <=? status_code) && (status_code <? 600) then inl RequestException
  else inr tt.

Definition response_json (body : payload) : exn + payload :=
  match body with
  | NotJson => inl RequestException
  | _ => inr body
  end.

(** The dict built for one [coin]. *)
Definition transform_coin (coin : Coin.t) : Quote.t :=
  Quote.mk (Coin.id coin) (Coin.name coin) (upper (Coin.symbol coin))
    (Coin.current_price coin) (Coin.market_cap coin) (Coin.total_volume coin)
    (or_zero (Coin.price_change_percentage_24h coin))
    (Coin.market_cap_rank coin) (Coin.image coin).

Fixpoint transform_loop (data : list Coin.t) (crypto_list : list Quote.t)
  : list Quote.t :=
  match data with
  | [] => crypto_list
  | coin :: rest => transform_loop rest (crypto_list ++ [transform_coin coin])
  end.

Definition fetch_top_10_cryptocurrencies (api : http_result)
  : M (option (list Quote.t)) :=
  try_except
    (response <-
       match api with
       | RequestFailed => raise RequestException
       | Response status_code body => ret (status_code, body)
       end ;;
     lift (raise_for_status (fst response)) ;;
     data <- lift (response_json (snd response)) ;;
     match data with
     | CoinArray coins => ret (Some (transform_loop coins []))
     | _ => raise PayloadError
     end)
    (fun _ => ret None).

(** [','.join(crypto_ids)], the [ids] parameter of the request. *)
Definition ids_param (crypto_ids : list string) : string :=
  String.concat "," crypto_ids.

(** [get_crypto_by_ids]; [api] tells what the endpoint does for a given
    [ids] parameter. *)
Definition get_crypto_by_ids (api : string -> http_result)
    (crypto_ids : list string) : M (option (list Quote.t)) :=
  try_except
    (match crypto_ids with
     | [] => ret (Some [])
     | _ :: _ =>
         response <-
           match api (ids_param crypto_ids) with
           | RequestFailed => raise RequestException
           | Response status_code body => ret (status_code, body)
           end ;;
         lift (raise_for_status (fst response)) ;;
         data <- lift (response_json (snd response)) ;;
         match data with
         | CoinArray coins => ret (Some (transform_loop coins []))
         | _ => raise PayloadError
         end
     end)
    (fun _ => ret None).

(* ================================================================== *)
(** * services/email_service.py *)
(* ================================================================== *)

(** Both entry points catch every exception and return whether SES took the
    message; that result is the argument [sent]. *)
Definition send_daily_dashboard_email (sent : bool) (crypto_data : list Quote.t)
  : M bool :=
  fun w =>
    (inr sent,
     mkworld (db w) (tx w) (outbox w ++ [DailyDashboardEmail crypto_data sent])).

Definition send_error_notification (sent : bool) (error_message : string)
  : M bool :=
  fun w =>
    (inr sent,
     mkworld (db w) (tx w) (outbox w ++ [ErrorNotification error_message sent])).

(* ================================================================== *)
(** * lambda_function.py *)
(* ================================================================== *)

(** The JSON body of the handler's reply. *)
Inductive reply_body : Type :=
| ErrorBody (message : string)
| UnexpectedBody (e : exn)
| SuccessBody (timestamp : datetime) (cryptocurrencies_updated : nat)
    (email_sent : bool).

Record reply := mkreply { statusCode : Z; body : reply_body }.

(** What the outside decides during one run of the handler. *)
Record handler_env := mkhandler {
  startup : exn + unit;     (* importing [app] and building the services *)
  api : http_result;
  store_env : db_env;       (* for [store_crypto_data] *)
  log_env : db_env;         (* for [log_dashboard_update] *)
  daily_email_sent : bool;
  error_email_sent : bool;
  reply_utcnow : datetime
}.

Definition fetch_failed_msg : string :=
  "Failed to fetch cryptocurrency data from CoinGecko API".

Definition store_failed_msg : string :=
  "Failed to store cryptocurrency data in database".

(** The error path shared by a failed fetch and a failed store. *)
Definition fail_run (env : handler_env) (error_msg : string) : M reply :=
  log_dashboard_update (log_env env) "failed" (Some error_msg) false None ;;
  send_error_notification (error_email_sent env) error_msg ;;
  ret (mkreply 500 (ErrorBody error_msg)).

Definition lambda_handler (env : handler_env) : M reply :=
  try_except
    (lift (startup env) ;;
     crypto_data <- fetch_top_10_cryptocurrencies (api env) ;;
     if negb (truthy_list crypto_data) then
       fail_run env fetch_failed_msg
     else
       let crypto_data := match crypto_data with Some l => l | None => [] end in
       storage_success <- store_crypto_data (store_env env) crypto_data ;;
       if negb storage_success then
         fail_run env store_failed_msg
       else
         email_sent <-
           send_daily_dashboard_email (daily_email_sent env) crypto_data ;;
         log_dashboard_update (log_env env) "success" None email_sent None ;;
         ret (mkreply 200
                (SuccessBody (reply_utcnow env) (List.length crypto_data)
                   email_sent)))
    (fun e => ret (mkreply 500 (UnexpectedBody e))).

(** A run from a quiescent session. *)
Definition start (d : database) : world := mkworld d [] [].

(* ================================================================== *)
(** * routes.py *)
(* ================================================================== *)

(** One element of the [data] array of [/api/crypto-data]; [timestamp]
    stands for its [isoformat()] text. *)
Module CryptoEntry.
Record t := mk {
  id : string;
  name : string;
  symbol : string;
  price : pyfloat;
  market_cap : pyfloat;
  volume_24h : pyfloat;
  price_change_24h : pyfloat;
  rank : Z;
  timestamp : datetime
}.
End CryptoEntry.

Definition format_entry (crypto : LatestRow.t) : CryptoEntry.t :=
  CryptoEntry.mk (LatestRow.crypto_id crypto) (LatestRow.name crypto)
    (LatestRow.symbol crypto) (FloatOf (LatestRow.price_usd crypto))
    (FloatOf (LatestRow.market_cap_usd crypto))
    (FloatOf (LatestRow.volume_24h_usd crypto))
    (FloatOf (LatestRow.price_change_24h_percent crypto))
    (LatestRow.market_cap_rank crypto) (LatestRow.timestamp crypto).

(** The JSON document and HTTP status returned by [/api/crypto-data]. *)
Inductive crypto_data_json : Type :=
| CryptoDataSuccess (data : list CryptoEntry.t)
| CryptoDataError.

Definition api_crypto_data (env : db_env) : M (crypto_data_json * Z) :=
  try_except
    (latest_data <- get_latest_top_10 env ;;
     ret (CryptoDataSuccess (map format_entry latest_data), 200))
    (fun _ => ret (CryptoDataError, 500)).

(** The JSON document returned by [/api/refresh]. *)
Inductive refresh_json : Type :=
| RefreshSuccess (timestamp : datetime)   (* "Data refreshed successfully" *)
| RefreshFetchError                       (* "Failed to fetch data from CoinGecko API" *)
| RefreshFailed (e : exn).                (* "Refresh failed: ..." *)

(** What the outside decides during one manual refresh. *)
Record refresh_env := mkrefresh {
  refresh_api : http_result;
  refresh_store_env : db_env;
  refresh_utcnow : datetime
}.

Definition api_refresh (env : refresh_env) : M (refresh_json * Z) :=
  try_except
    (top_10_data <- fetch_top_10_cryptocurrencies (refresh_api env) ;;
     if truthy_list top_10_data then
       let top_10_data := match top_10_data with Some l => l | None => [] end in
       store_crypto_data (refresh_store_env env) top_10_data ;;
       ret (RefreshSuccess (refresh_utcnow env), 200)
     else
       ret (RefreshFetchError, 500))
    (fun e => ret (RefreshFailed e, 500)).

(* ================================================================== *)
(** * Vocabulary of the properties *)
(* ================================================================== *)

(** The change made to [cryptocurrencies] for one quote of the batch. *)
Definition currency_change (known : string -> bool) (timestamp : datetime)
    (crypto : Quote.t) : change :=
  if negb (known (Quote.id crypto))
  then NewCryptoCurrency (Quote.id crypto) (Quote.name crypto)
         (Quote.symbol crypto)
  else SetCryptoCurrency (Quote.id crypto) (Quote.name crypto)
         (Quote.symbol crypto) timestamp.

(** All the changes of one batch, in the order the method makes them. *)
Definition batch_changes (d : database) (timestamp : datetime)
    (crypto_list : list Quote.t) : list change :=
  map (currency_change
         (fun i => has_currency i
                     (query_existing (map Quote.id crypto_list) d))
         timestamp) crypto_list
  ++ map (fun q => new_crypto_data q timestamp) crypto_list.

(** The primary-key constraint of [cryptocurrencies]. *)
Definition pk_unique (d : database) : Prop :=
  NoDup (map CryptoCurrency.id (cryptocurrencies d)).

(** [row] is what the database stores for quote [q] at [timestamp]. *)
Definition stored_as (timestamp : datetime) (q : Quote.t) (row : CryptoData.t)
  : Prop :=
  crypto_data_row (Quote.id q) (Quote.price_usd q) (Quote.market_cap_usd q)
    (Quote.volume_24h_usd q) (Quote.price_change_24h_percent q)
    (Quote.market_cap_rank q) timestamp = inr row.

Definition rank_le (a b : LatestRow.t) : Prop :=
  LatestRow.market_cap_rank a <= LatestRow.market_cap_rank b.


(** A joined row shows the columns of the [crypto_data] row it comes from. *)
Definition joined (r : CryptoData.t) (v : LatestRow.t) : Prop :=
  LatestRow.crypto_id v = CryptoData.crypto_id r /\
  LatestRow.price_usd v = CryptoData.price_usd r /\
  LatestRow.market_cap_usd v = CryptoData.market_cap_usd r /\
  LatestRow.market_cap_rank v = CryptoData.market_cap_rank r /\
  LatestRow.timestamp v = CryptoData.timestamp r.






(** The result of the fetch, by cases on what the endpoint did. *)
Definition fetched (api : http_result) : option (list Quote.t) :=
  match api with
  | Response status_code (CoinArray coins) =>
      if (400 <=? status_code) && (status_code <? 600) then None
      else Some (map transform_coin coins)
  | _ => None
  end.

(** The row written by the error path, and the world it leaves. *)
Definition failed_row (env : handler_env) (error_msg : string)
  : DashboardUpdate.t :=
  DashboardUpdate.mk (flush_utcnow (log_env env)) "failed" (Some error_msg)
    false None.

Definition success_row (env : handler_env) (email_sent : bool)
  : DashboardUpdate.t :=
  DashboardUpdate.mk (flush_utcnow (log_env env)) "success" None email_sent None.

(** The tables after [log_dashboard_update] tried to append [row]. *)
Definition logged (env : handler_env) (row : DashboardUpdate.t) (d : database)
  : database :=
  if db_up (log_env env)
  then mkdb (cryptocurrencies d) (crypto_data d) (dashboard_updates d ++ [row])
  else d.

(** The same run, with another outcome of the HTTP call. *)
Definition with_api (env : handler_env) (a : http_result) : handler_env :=
  mkhandler (startup env) a (store_env env) (log_env env)
    (daily_email_sent env) (error_email_sent env) (reply_utcnow env).

(** The rows that a purge with [cutoff] keeps. *)
Definition kept_data (cutoff : datetime) (rows : list CryptoData.t)
  : list CryptoData.t :=
  filter (fun r => negb (CryptoData.timestamp r <? cutoff)) rows.

Definition kept_updates (cutoff : datetime) (rows : list DashboardUpdate.t)
  : list DashboardUpdate.t :=
  filter (fun u => negb (DashboardUpdate.update_timestamp u <? cutoff)) rows.

(** The quote carries the coin's fields; a null 24h change has become 0. *)
Definition normalized (coin : Coin.t) (q : Quote.t) : Prop :=
  Quote.id q = Coin.id coin /\
  Quote.name q = Coin.name coin /\
  Quote.symbol q = upper (Coin.symbol coin) /\
  Quote.price_usd q = Coin.current_price coin /\
  Quote.market_cap_usd q = Coin.market_cap coin /\
  Quote.volume_24h_usd q = Coin.total_volume coin /\
  Quote.market_cap_rank q = Coin.market_cap_rank coin /\
  Quote.image_url q = Coin.image coin /\
  (Coin.price_change_percentage_24h coin = None ->
   Quote.price_change_24h_percent q = Some py_zero) /\
  (forall c, Coin.price_change_percentage_24h coin = Some c ->
     exists c', Quote.price_change_24h_percent q = Some c' /\ dec_eq c' c).

(** A number that [crypto_data] requires is null in the quote. *)
Definition missing_number (q : Quote.t) : Prop :=
  Quote.price_usd q = None \/ Quote.market_cap_usd q = None \/
  Quote.volume_24h_usd q = None \/ Quote.price_change_24h_percent q = None \/
  Quote.market_cap_rank q = None.

(** After a store at [env] on database [d], row [c] of [cryptocurrencies] is
    the upsert of quote [q]: name and symbol are the quote's, and a currency
    already known keeps its [created_at] and is stamped with the call's
    timestamp.  Nothing is said of the dates of a new currency, which come
    from the column defaults. *)
Definition upserted (d : database) (env : db_env) (q : Quote.t)
    (c : CryptoCurrency.t) : Prop :=
  CryptoCurrency.id c = Quote.id q /\
  CryptoCurrency.name c = Quote.name q /\
  CryptoCurrency.symbol c = Quote.symbol q /\
  (has_currency (Quote.id q) (cryptocurrencies d) = true ->
   CryptoCurrency.updated_at c = utcnow env /\
   exists c0, In c0 (cryptocurrencies d) /\
              CryptoCurrency.id c0 = Quote.id q /\
              CryptoCurrency.created_at c = CryptoCurrency.created_at c0).

(** ASCII text, and text with a letter a to z in it. *)
Definition is_ascii (s : string) : bool :=
  forallb (fun c => (nat_of_ascii c <? 128)%nat) (list_ascii_of_string s).

Definition has_lower (s : string) : bool :=
  existsb (fun c => ((97 <=? nat_of_ascii c) && (nat_of_ascii c <=? 122))%nat)
          (list_ascii_of_string s).

Definition timestamp_le (a b : CryptoData.t) : Prop :=
  CryptoData.timestamp a <= CryptoData.timestamp b.

(** The rows of [crypto_data] that carry timestamp [latest], joined with
    their currency. *)
Definition latest_group (latest : datetime) (d : database) : list LatestRow.t :=
  flat_map (join_currency (cryptocurrencies d))
    (filter (fun r => CryptoData.timestamp r =? latest) (crypto_data d)).

(** The rows of [crypto_data] that [get_historical_data] selects. *)
Definition in_window (crypto_id : string) (start_date : datetime)
    (r : CryptoData.t) : bool :=
  String.eqb (CryptoData.crypto_id r) crypto_id &&
  (start_date <=? CryptoData.timestamp r).

(* ================================================================== *)
(** * Sample data *)
(* ================================================================== *)

Definition sample_quote (i : string) (rank cents : Z) : Quote.t :=
  Quote.mk i i (upper i) (Some (mkdec cents 2)) (Some (mkdec (cents * 1000) 0))
    (Some (mkdec 77 0)) (Some (mkdec (-12345) 5)) (Some rank) None.

(** Ten quotes, not in rank order. *)
Definition sample_batch : list Quote.t :=
  [ sample_quote "tether" 3 100; sample_quote "bitcoin" 1 4325012;
    sample_quote "ethereum" 2 250050; sample_quote "bnb" 4 31000;
    sample_quote "solana" 5 9800; sample_quote "xrp" 6 52;
    sample_quote "usdc" 7 100; sample_quote "cardano" 8 45;
    sample_quote "dogecoin" 9 8; sample_quote "tron" 10 11 ].

Definition sample_coin (i : string) (rank cents : Z) : Coin.t :=
  Coin.mk i i i (Some (mkdec cents 2)) (Some (mkdec (cents * 1000) 0))
    (Some (mkdec 77 0)) None (Some rank) None.

(** A clock reading [day] days and [us] microseconds after [datetime.min]. *)
Definition at_day (day us : Z) : datetime := day * usec_per_day + us.

Definition env_at (day : Z) : db_env :=
  mkenv (at_day day 0) (at_day day 250000) true.

(** The database after one earlier, complete run on day 100. *)
Definition db_after_first_run : database :=
  db (snd (store_crypto_data (env_at 100) sample_batch (start empty_db))).

(** A batch whose asset #7 of 10 comes without a price. *)
Definition batch_failing_at_7 : list Quote.t :=
  firstn 6 sample_batch ++
  [Quote.mk "usdc" "usdc" "USDC" None (Some (mkdec 100000 0))
     (Some (mkdec 77 0)) (Some (mkdec 0 0)) (Some 7) None] ++
  skipn 7 sample_batch.

(** Snapshots aged 5, 35 and 65 days, with a log entry for each. *)
Definition snapshot_aged (today age : Z) : CryptoData.t :=
  CryptoData.mk "bitcoin" (mkdec 4325012000000 8) (mkdec 85000000000000 2)
    (mkdec 7700 2) (mkdec (-12500) 4) 1 (at_day (today - age) 0).

Definition log_aged (today age : Z) : DashboardUpdate.t :=
  DashboardUpdate.mk (at_day (today - age) 0) "success" None true None.

Definition db_aged (today : Z) : database :=
  mkdb [CryptoCurrency.mk "bitcoin" "Bitcoin" "BTC"
          (at_day (today - 65) 0) (at_day (today - 5) 0)]
       [snapshot_aged today 65; snapshot_aged today 35; snapshot_aged today 5]
       [log_aged today 65; log_aged today 35; log_aged today 5].

(** The ten coins of the sample response. *)
Definition sample_coins : list Coin.t :=
  [ sample_coin "bitcoin" 1 4325012; sample_coin "ethereum" 2 250050;
    sample_coin "tether" 3 100; sample_coin "bnb" 4 31000;
    sample_coin "solana" 5 9800; sample_coin "xrp" 6 52;
    sample_coin "usdc" 7 100; sample_coin "cardano" 8 45;
    sample_coin "dogecoin" 9 8; sample_coin "tron" 10 11 ].

(** One complete run on an empty database. *)
Definition sample_run : handler_env :=
  mkhandler (inr tt) (Response 200 (CoinArray sample_coins))
    (env_at 739000) (mkenv (at_day 739000 400000) (at_day 739000 500000) true)
    true true (at_day 739000 600000).

(** A second complete run, a day after [sample_run]. *)
Definition second_run : handler_env :=
  mkhandler (inr tt) (Response 200 (CoinArray (firstn 3 sample_coins)))
    (env_at 739001) (mkenv (at_day 739001 400000) (at_day 739001 500000) true)
    false true (at_day 739001 600000).

Definition world_after_sample_run : world :=
  snd (lambda_handler sample_run (start empty_db)).

Definition world_after_second_run : world :=
  snd (lambda_handler second_run world_after_sample_run).

(** [sample_run] with SES refusing the daily message. *)
Definition run_without_email : handler_env :=
  mkhandler (startup sample_run) (api sample_run) (store_env sample_run)
    (log_env sample_run) false (error_email_sent sample_run)
    (reply_utcnow sample_run).

(** The sample response with the price of its seventh coin null. *)
Definition coins_with_null_price : list Coin.t :=
  firstn 6 sample_coins ++
  [Coin.mk "usdc" "USDC" "usdc" None (Some (mkdec 100000 0))
     (Some (mkdec 77 0)) None (Some 7) None] ++
  skipn 7 sample_coins.

Definition run_with_null_price : handler_env :=
  with_api sample_run (Response 200 (CoinArray coins_with_null_price)).



(** Four currencies stored on day 90: three of [sample_batch] and one that
    the batch does not name. *)
Definition db_with_four : database :=
  db (snd (store_crypto_data (env_at 90)
             [ sample_quote "bitcoin" 1 4000000; sample_quote "solana" 5 9000;
               sample_quote "cardano" 8 40; sample_quote "monero" 11 15000 ]
             (start empty_db))).

(** Twelve quotes stored in one call: the latest group has twelve rows. *)
Definition batch_of_twelve : list Quote.t :=
  [sample_quote "polkadot" 12 600] ++ sample_batch ++
  [sample_quote "avalanche" 11 2500].

Definition db_with_twelve : database :=
  db (snd (store_crypto_data (env_at 100) batch_of_twelve (start empty_db))).

(* ================================================================== *)
(** * Properties *)
(* ================================================================== *)

(** ** The session *)

Lemma flush_app now d cs1 cs2 :
  flush now d (cs1 ++ cs2) =
  (check d' <- flush now d cs1; flush now d' cs2).
Proof.
  revert d; induction cs1 as [|c cs1 IH]; intro d; simpl; [reflexivity|].
  destruct (apply_change now d c) as [e|d1]; simpl; [reflexivity|apply IH].
Qed.

Lemma flush_app_inv now d cs1 cs2 d' :
  flush now d (cs1 ++ cs2) = inr d' ->
  exists d1, flush now d cs1 = inr d1 /\ flush now d1 cs2 = inr d'.
Proof.
  rewrite flush_app. destruct (flush now d cs1) as [e|d1]; simpl.
  - discriminate.
  - intro H; exists d1; split; [reflexivity|exact H].
Qed.

Lemma store_loop_run existing timestamp crypto_list acc w :
  store_loop existing timestamp crypto_list acc w =
  (inr (acc ++ map (fun q => new_crypto_data q timestamp) crypto_list),
   mkworld (db w)
     (tx w ++ map (currency_change (fun i => has_currency i existing) timestamp)
                  crypto_list)
     (outbox w)).
Proof.
  revert acc w; induction crypto_list as [|q l IH]; intros acc w; simpl.
  - rewrite !app_nil_r. destruct w; reflexivity.
  - unfold bind at 1.
    assert (Hstep :
      (if negb (has_currency (Quote.id q) existing)
       then session_add (NewCryptoCurrency (Quote.id q) (Quote.name q) (Quote.symbol q))
       else session_add (SetCryptoCurrency (Quote.id q) (Quote.name q)
                           (Quote.symbol q) timestamp)) w =
      (inr tt,
       mkworld (db w)
         (tx w ++ [currency_change (fun i => has_currency i existing) timestamp q])
         (outbox w))).
    { unfold currency_change.
      destruct (negb (has_currency (Quote.id q) existing)); reflexivity. }
    rewrite Hstep, IH; simpl. rewrite <- !app_assoc. reflexivity.
Qed.

(** [store_crypto_data], run from a quiescent session. *)
Lemma store_crypto_data_run env crypto_list d ob :
  store_crypto_data env crypto_list (mkworld d [] ob) =
  if db_up env then
    match flush (flush_utcnow env) d
            (batch_changes d (utcnow env) crypto_list) with
    | inr d' => (inr true, mkworld d' [] ob)
    | inl _ => (inr false, mkworld d [] ob)
    end
  else (inr false, mkworld d [] ob).
Proof.
  unfold store_crypto_data, try_except, bind, select; simpl.
  destruct (db_up env) eqn:Hup; simpl; [|reflexivity].
  rewrite store_loop_run; simpl.
  unfold session_commit; simpl. rewrite Hup.
  fold (batch_changes d (utcnow env) crypto_list).
  destruct (flush (flush_utcnow env) d (batch_changes d (utcnow env) crypto_list));
    reflexivity.
Qed.

Lemma log_dashboard_update_run env status error_message email_sent top d ob :
  log_dashboard_update env status error_message email_sent top
    (mkworld d [] ob) =
  if db_up env && (String.length status <=? 20)%nat then
    (inr true,
     mkworld
       (mkdb (cryptocurrencies d) (crypto_data d)
          (dashboard_updates d ++
           [DashboardUpdate.mk (flush_utcnow env) status error_message
              email_sent
              (if truthy_list top then option_map json_dumps top else None)]))
       [] ob)
  else (inr false, mkworld d [] ob).
Proof.
  unfold log_dashboard_update, try_except, bind, session_commit; simpl.
  destruct (db_up env); simpl; [|reflexivity].
  unfold insert_dashboard_update, varchar.
  destruct (String.length status <=? 20)%nat; reflexivity.
Qed.

(** ** Primary keys *)

Lemma has_currency_In i cs :
  has_currency i cs = true <-> In i (map CryptoCurrency.id cs).
Proof.
  unfold has_currency. rewrite existsb_exists, in_map_iff.
  split; intros [c [H1 H2]]; exists c.
  - apply String.eqb_eq in H2. auto.
  - split; [exact H2|]. apply String.eqb_eq. exact H1.
Qed.

Lemma has_currency_not_In i cs :
  has_currency i cs = false <-> ~ In i (map CryptoCurrency.id cs).
Proof.
  rewrite <- has_currency_In. destruct (has_currency i cs); split; congruence.
Qed.

Lemma has_currency_query_existing i ids d :
  In i ids ->
  has_currency i (query_existing ids d) = has_currency i (cryptocurrencies d).
Proof.
  intro Hin. unfold query_existing.
  induction (cryptocurrencies d) as [|c cs IH]; simpl; [reflexivity|].
  destruct (existsb (String.eqb (CryptoCurrency.id c)) ids) eqn:Hc; simpl.
  - rewrite IH. reflexivity.
  - rewrite IH.
    destruct (String.eqb (CryptoCurrency.id c) i) eqn:Heq; [|reflexivity].
    apply String.eqb_eq in Heq. subst i.
    assert (existsb (String.eqb (CryptoCurrency.id c)) ids = true).
    { apply existsb_exists. exists (CryptoCurrency.id c).
      split; [exact Hin|apply String.eqb_refl]. }
    congruence.
Qed.

Lemma update_keeps_ids i n s t cs :
  map CryptoCurrency.id
    (map (fun c =>
            if String.eqb (CryptoCurrency.id c) i
            then CryptoCurrency.mk (CryptoCurrency.id c) n s
                   (CryptoCurrency.created_at c) t
            else c) cs)
  = map CryptoCurrency.id cs.
Proof.
  rewrite map_map. apply map_ext. intro c.
  destruct (String.eqb (CryptoCurrency.id c) i); reflexivity.
Qed.

(** Unfolds the column checks of one hypothesis, case by case. *)
Ltac checks H :=
  repeat match type of H with
         | context [varchar ?n ?s] =>
             unfold varchar in H;
             destruct (String.length s <=? n)%nat eqn:?; simpl in H
         | context [match ?x with inl _ => _ | inr _ => _ end] =>
             destruct x eqn:?; simpl in H
         | context [if ?b then _ else _] => destruct b eqn:?; simpl in H
         | context [bindE ?x _] => unfold bindE in H
         end;
  try discriminate.

(** What a change does to the keys of [cryptocurrencies]: nothing, or one
    fresh key at the end. *)
Lemma apply_change_ids now d c d' :
  apply_change now d c = inr d' ->
  map CryptoCurrency.id (cryptocurrencies d') =
    map CryptoCurrency.id (cryptocurrencies d)
  \/ exists i, ~ In i (map CryptoCurrency.id (cryptocurrencies d)) /\
       map CryptoCurrency.id (cryptocurrencies d') =
         map CryptoCurrency.id (cryptocurrencies d) ++ [i].
Proof.
  destruct c; simpl; intro H.
  - unfold insert_cryptocurrency in H. checks H.
    injection H as <-. simpl. right. exists id. split.
    + apply has_currency_not_In. assumption.
    + rewrite map_app. reflexivity.
  - unfold update_cryptocurrency in H. checks H.
    injection H as <-. simpl. left. apply update_keeps_ids.
  - unfold insert_crypto_data in H. checks H.
    injection H as <-. left. reflexivity.
  - unfold insert_dashboard_update in H. checks H.
    injection H as <-. left. reflexivity.
  - injection H as <-. left. reflexivity.
  - injection H as <-. left. reflexivity.
Qed.

Lemma apply_change_pk now d c d' :
  pk_unique d -> apply_change now d c = inr d' -> pk_unique d'.
Proof.
  unfold pk_unique. intros Hd H.
  destruct (apply_change_ids _ _ _ _ H) as [E|[i [Hi E]]]; rewrite E.
  - exact Hd.
  - apply NoDup_app; [exact Hd|constructor; [intros []|constructor]|].
    intros x Hx [<-|[]]. exact (Hi Hx).
Qed.

Lemma apply_change_keeps_currency now d c d' i :
  apply_change now d c = inr d' ->
  has_currency i (cryptocurrencies d) = true ->
  has_currency i (cryptocurrencies d') = true.
Proof.
  intros H. rewrite !has_currency_In.
  destruct (apply_change_ids _ _ _ _ H) as [E|[j [_ E]]]; rewrite E.
  - auto.
  - intro Hi. apply in_or_app. left. exact Hi.
Qed.

(** The primary key stays unique across a transaction. *)
Lemma flush_pk now cs : forall d d',
  pk_unique d -> flush now d cs = inr d' -> pk_unique d'.
Proof.
  induction cs as [|c cs IH]; simpl; intros d d' Hd H.
  - injection H as <-. exact Hd.
  - destruct (apply_change now d c) as [e|d1] eqn:Hc; simpl in H; [discriminate|].
    eapply IH; [|exact H]. eapply apply_change_pk; eauto.
Qed.


(** ** The two phases of a batch *)

(** The changes to [cryptocurrencies] leave the other two tables alone. *)
Lemma currency_phase_frame now known ts l : forall d d',
  flush now d (map (currency_change known ts) l) = inr d' ->
  crypto_data d' = crypto_data d /\ dashboard_updates d' = dashboard_updates d.
Proof.
  induction l as [|q l IH]; simpl; intros d d' H.
  - injection H as <-. split; reflexivity.
  - destruct (apply_change now d (currency_change known ts q)) as [e|d1] eqn:Hc;
      simpl in H; [discriminate|].
    destruct (IH _ _ H) as [E1 E2]. rewrite E1, E2.
    unfold currency_change in Hc.
    destruct (negb (known (Quote.id q))); simpl in Hc.
    + unfold insert_cryptocurrency in Hc. checks Hc.
      injection Hc as <-. split; reflexivity.
    + unfold update_cryptocurrency in Hc. checks Hc.
      injection Hc as <-. split; reflexivity.
Qed.

(** The inserts into [crypto_data] append one row per quote, in order, and
    each passed the foreign-key check. *)
Lemma data_phase_shape now ts l : forall d d',
  flush now d (map (fun q => new_crypto_data q ts) l) = inr d' ->
  cryptocurrencies d' = cryptocurrencies d /\
  dashboard_updates d' = dashboard_updates d /\
  Forall (fun q => has_currency (Quote.id q) (cryptocurrencies d) = true) l /\
  exists rows,
    crypto_data d' = crypto_data d ++ rows /\ Forall2 (stored_as ts) l rows.
Proof.
  induction l as [|q l IH]; simpl; intros d d' H.
  - injection H as <-. repeat split; [constructor|].
    exists []. rewrite app_nil_r. split; [reflexivity|constructor].
  - destruct (insert_crypto_data (Quote.id q) (Quote.price_usd q)
                (Quote.market_cap_usd q) (Quote.volume_24h_usd q)
                (Quote.price_change_24h_percent q) (Quote.market_cap_rank q)
                ts d) as [e|d1] eqn:Hc; simpl in H; [discriminate|].
    destruct (IH _ _ H) as (E1 & E2 & Hfk & rows & E3 & Hrows).
    unfold insert_crypto_data in Hc.
    destruct (crypto_data_row (Quote.id q) (Quote.price_usd q)
                (Quote.market_cap_usd q) (Quote.volume_24h_usd q)
                (Quote.price_change_24h_percent q) (Quote.market_cap_rank q) ts)
      as [e|row] eqn:Hrow; simpl in Hc; [discriminate|].
    destruct (has_currency (Quote.id q) (cryptocurrencies d)) eqn:Hfk0;
      [|discriminate].
    injection Hc as <-. simpl in *.
    repeat split; try assumption.
    + constructor; assumption.
    + exists (row :: rows). rewrite E3, <- app_assoc. split; [reflexivity|].
      constructor; assumption.
Qed.

Lemma stored_as_fields ts q row :
  stored_as ts q row ->
  CryptoData.crypto_id row = Quote.id q /\
  CryptoData.timestamp row = ts /\
  Quote.market_cap_rank q = Some (CryptoData.market_cap_rank row) /\
  (exists p, Quote.price_usd q = Some p /\
             numeric 20 8 p = inr (CryptoData.price_usd row)) /\
  (exists m, Quote.market_cap_usd q = Some m /\
             numeric 20 2 m = inr (CryptoData.market_cap_usd row)).
Proof.
  unfold stored_as, crypto_data_row. intro H.
  destruct (Quote.price_usd q) as [p|]; simpl in H; [|discriminate].
  destruct (numeric 20 8 p) as [|p'] eqn:Hp; simpl in H; [discriminate|].
  destruct (Quote.market_cap_usd q) as [m|]; simpl in H; [|discriminate].
  destruct (numeric 20 2 m) as [|m'] eqn:Hm; simpl in H; [discriminate|].
  destruct (Quote.volume_24h_usd q) as [v|]; simpl in H; [|discriminate].
  destruct (numeric 20 2 v) as [|v'] eqn:Hv; simpl in H; [discriminate|].
  destruct (Quote.price_change_24h_percent q) as [c|]; simpl in H; [|discriminate].
  destruct (numeric 10 4 c) as [|c'] eqn:Hc; simpl in H; [discriminate|].
  destruct (Quote.market_cap_rank q) as [r|]; simpl in H; [|discriminate].
  unfold int4 in H.
  destruct ((- 2 ^ 31 <=? r) && (r <? 2 ^ 31)); simpl in H; [|discriminate].
  injection H as <-. simpl.
  repeat split; eauto.
Qed.


(** A successful [store_crypto_data], taken apart. *)
Lemma store_crypto_data_true env crypto_list d ob w' :
  store_crypto_data env crypto_list (mkworld d [] ob) = (inr true, w') ->
  tx w' = [] /\ outbox w' = ob /\
  dashboard_updates (db w') = dashboard_updates d /\
  (pk_unique d -> pk_unique (db w')) /\
  Forall (fun q => has_currency (Quote.id q) (cryptocurrencies (db w')) = true)
         crypto_list /\
  exists rows,
    crypto_data (db w') = crypto_data d ++ rows /\
    Forall2 (stored_as (utcnow env)) crypto_list rows.
Proof.
  rewrite store_crypto_data_run.
  destruct (db_up env); [|discriminate].
  destruct (flush (flush_utcnow env) d (batch_changes d (utcnow env) crypto_list))
    as [e|d'] eqn:Hf; [discriminate|].
  intro H. injection H as <-. simpl.
  pose proof Hf as Hf0.
  unfold batch_changes in Hf.
  apply flush_app_inv in Hf. destruct Hf as (d1 & H1 & H2).
  apply currency_phase_frame in H1. destruct H1 as [F1 F2].
  apply data_phase_shape in H2.
  destruct H2 as (E1 & E2 & Hfk & rows & E3 & Hrows).
  repeat split.
  - congruence.
  - intro Hpk. eapply flush_pk; eauto.
  - rewrite E1. exact Hfk.
  - exists rows. split; [congruence|exact Hrows].
Qed.

(** A failed [store_crypto_data] returns [False] and leaves the world as it
    found it; the method never raises. *)
Lemma store_crypto_data_total env crypto_list d ob :
  exists b w',
    store_crypto_data env crypto_list (mkworld d [] ob) = (inr b, w') /\
    (b = false -> w' = mkworld d [] ob).
Proof.
  rewrite store_crypto_data_run.
  destruct (db_up env).
  - destruct (flush (flush_utcnow env) d (batch_changes d (utcnow env) crypto_list)).
    + exists false, (mkworld d [] ob). split; [reflexivity|auto].
    + exists true, (mkworld d0 [] ob). split; [reflexivity|discriminate].
  - exists false, (mkworld d [] ob). split; [reflexivity|auto].
Qed.

(** ** Reading the latest group *)

Lemma get_latest_top_10_run env w :
  get_latest_top_10 env w =
  if db_up env then
    match latest_timestamp_query (db w) with
    | None => (inr [], w)
    | Some latest => (inr (top_10_query latest (db w)), w)
    end
  else (inr [], w).
Proof.
  unfold get_latest_top_10, try_except, bind, select.
  destruct (db_up env); [|reflexivity].
  destruct (latest_timestamp_query (db w)); reflexivity.
Qed.

Lemma fold_max_ge ts : forall t, t <= fold_left Z.max ts t.
Proof.
  induction ts as [|a ts IH]; simpl; intro t; [lia|].
  specialize (IH (Z.max t a)). lia.
Qed.

Lemma fold_max_bound ts : forall t x,
  In x ts -> x <= fold_left Z.max ts t.
Proof.
  induction ts as [|a ts IH]; simpl; intros t x []; subst.
  - pose proof (fold_max_ge ts (Z.max t x)). lia.
  - apply IH. assumption.
Qed.

Lemma fold_max_In ts : forall t,
  fold_left Z.max ts t = t \/ In (fold_left Z.max ts t) ts.
Proof.
  induction ts as [|a ts IH]; simpl; intro t; [left; reflexivity|].
  destruct (IH (Z.max t a)) as [E|Hin]; [|right; right; exact Hin].
  rewrite E. destruct (Z.max_spec t a) as [[_ ->]|[_ ->]]; auto.
Qed.

(** The latest timestamp is the greatest one stored, and some row has it. *)
Lemma latest_timestamp_query_spec d latest :
  latest_timestamp_query d = Some latest ->
  Forall (fun r => CryptoData.timestamp r <= latest) (crypto_data d) /\
  Exists (fun r => CryptoData.timestamp r = latest) (crypto_data d).
Proof.
  unfold latest_timestamp_query.
  destruct (crypto_data d) as [|r rs]; simpl; [discriminate|].
  intro H. injection H as <-. split.
  - constructor; [apply fold_max_ge|].
    apply Forall_forall. intros x Hx. apply fold_max_bound.
    apply in_map. exact Hx.
  - destruct (fold_max_In (map CryptoData.timestamp rs) (CryptoData.timestamp r))
      as [E|Hin].
    + apply Exists_cons_hd. symmetry. exact E.
    + apply Exists_cons_tl. apply in_map_iff in Hin.
      destruct Hin as (x & Hx & Hin). apply Exists_exists. exists x. auto.
Qed.

Lemma latest_timestamp_query_intro d latest :
  Forall (fun r => CryptoData.timestamp r <= latest) (crypto_data d) ->
  Exists (fun r => CryptoData.timestamp r = latest) (crypto_data d) ->
  latest_timestamp_query d = Some latest.
Proof.
  intros Hall Hex.
  destruct (latest_timestamp_query d) as [t|] eqn:Hq.
  - destruct (latest_timestamp_query_spec _ _ Hq) as [Hall' Hex'].
    rewrite Forall_forall in Hall, Hall'.
    apply Exists_exists in Hex. destruct Hex as (x & Hx & Ex).
    apply Exists_exists in Hex'. destruct Hex' as (y & Hy & Ey).
    pose proof (Hall y Hy). pose proof (Hall' x Hx). f_equal. lia.
  - unfold latest_timestamp_query in Hq.
    destruct (crypto_data d); simpl in Hq; [|discriminate].
    inversion Hex.
Qed.

(** *** ORDER BY *)

Lemma insert_by_rank_perm x l : Permutation (insert_by_rank x l) (x :: l).
Proof.
  induction l as [|y l IH]; simpl; [reflexivity|].
  destruct (LatestRow.market_cap_rank x <=? LatestRow.market_cap_rank y).
  - reflexivity.
  - rewrite IH. apply perm_swap.
Qed.

Lemma order_by_rank_perm l : Permutation (order_by_rank l) l.
Proof.
  induction l as [|x l IH]; simpl; [reflexivity|].
  rewrite insert_by_rank_perm. constructor. exact IH.
Qed.

Lemma insert_by_rank_sorted x l :
  StronglySorted rank_le l -> StronglySorted rank_le (insert_by_rank x l).
Proof.
  induction 1 as [|y l Hl IH Hy]; simpl.
  - constructor; constructor.
  - destruct (LatestRow.market_cap_rank x <=? LatestRow.market_cap_rank y) eqn:E.
    + apply Z.leb_le in E. constructor.
      * constructor; assumption.
      * constructor; [exact E|].
        eapply Forall_impl; [|exact Hy]. unfold rank_le. intros; lia.
    + apply Z.leb_gt in E. constructor; [exact IH|].
      eapply Permutation_Forall; [symmetry; apply insert_by_rank_perm|].
      constructor; [unfold rank_le; lia|exact Hy].
Qed.

Lemma order_by_rank_sorted l : StronglySorted rank_le (order_by_rank l).
Proof.
  induction l as [|x l IH]; simpl; [constructor|].
  apply insert_by_rank_sorted. exact IH.
Qed.

Lemma firstn_incl {A} n : forall (l : list A) x, In x (firstn n l) -> In x l.
Proof.
  induction n as [|n IH]; intros [|y l] x; simpl; try contradiction.
  intros [->|H]; [left; reflexivity|right; apply IH; exact H].
Qed.

Lemma firstn_sorted {A} (R : A -> A -> Prop) n : forall l,
  StronglySorted R l -> StronglySorted R (firstn n l).
Proof.
  induction n as [|n IH]; intros l Hl; simpl; [constructor|].
  destruct l as [|x l]; [constructor|].
  inversion Hl; subst. constructor; [apply IH; assumption|].
  apply Forall_forall. intros y Hy.
  eapply Forall_forall; [eassumption|]. eapply firstn_incl. exact Hy.
Qed.


(** *** The join *)

Lemma join_currency_joined cs r :
  Forall (joined r) (join_currency cs r).
Proof.
  unfold join_currency. apply Forall_forall. intros v Hv.
  apply in_map_iff in Hv. destruct Hv as (c & <- & _).
  unfold joined; simpl. repeat split.
Qed.




(** Every row returned for [latest] carries that timestamp. *)
Lemma top_10_query_timestamps latest d :
  Forall (fun v => LatestRow.timestamp v = latest) (top_10_query latest d).
Proof.
  unfold top_10_query. apply Forall_forall. intros v Hv.
  apply firstn_incl in Hv.
  apply (Permutation_in _ (order_by_rank_perm _)) in Hv.
  apply in_flat_map in Hv. destruct Hv as (r & Hr & Hv).
  apply filter_In in Hr. destruct Hr as [_ Hr]. apply Z.eqb_eq in Hr.
  pose proof (join_currency_joined (cryptocurrencies d) r) as Hj.
  rewrite Forall_forall in Hj. destruct (Hj v Hv) as (_ & _ & _ & _ & E).
  congruence.
Qed.

(** ** Valid quotes *)




Lemma has_currency_ids i cs cs' :
  map CryptoCurrency.id cs = map CryptoCurrency.id cs' ->
  has_currency i cs = has_currency i cs'.
Proof.
  intro E.
  destruct (has_currency i cs) eqn:H1; symmetry.
  - apply has_currency_In. rewrite <- E. apply has_currency_In. exact H1.
  - apply has_currency_not_In. rewrite <- E. apply has_currency_not_In. exact H1.
Qed.




(** ** C1: store, then read back *)



Lemma Forall_of_forallb {A} (f : A -> bool) (P : A -> Prop) l :
  (forall x, f x = true -> P x) -> forallb f l = true -> Forall P l.
Proof.
  intros HP H. apply Forall_forall. intros x Hx. apply HP.
  rewrite forallb_forall in H. apply H. exact Hx.
Qed.

Lemma filter_all {A} (f : A -> bool) l :
  Forall (fun x => f x = true) l -> filter f l = l.
Proof.
  induction 1 as [|x l Hx _ IH]; simpl; [reflexivity|].
  rewrite Hx, IH. reflexivity.
Qed.





(** ** The fetcher and the handler, run *)

Lemma transform_loop_run data : forall acc,
  transform_loop data acc = acc ++ map transform_coin data.
Proof.
  induction data as [|c data IH]; intro acc; simpl.
  - rewrite app_nil_r. reflexivity.
  - rewrite IH, <- app_assoc. reflexivity.
Qed.

Lemma fetch_top_10_cryptocurrencies_run api w :
  fetch_top_10_cryptocurrencies api w = (inr (fetched api), w).
Proof.
  unfold fetch_top_10_cryptocurrencies, fetched, try_except, bind, lift,
    raise_for_status.
  destruct api as [|status_code body]; simpl; [reflexivity|].
  destruct ((400 <=? status_code) && (status_code <? 600)); simpl.
  - destruct body; reflexivity.
  - destruct body; simpl; try reflexivity.
    rewrite transform_loop_run. reflexivity.
Qed.

Lemma fail_run_run env error_msg d ob :
  fail_run env error_msg (mkworld d [] ob) =
  (inr (mkreply 500 (ErrorBody error_msg)),
   mkworld (logged env (failed_row env error_msg) d) []
     (ob ++ [ErrorNotification error_msg (error_email_sent env)])).
Proof.
  unfold fail_run, bind. rewrite log_dashboard_update_run.
  unfold logged, failed_row. simpl.
  destruct (db_up (log_env env)); reflexivity.
Qed.

(** A run whose fetch yields nothing usable. *)
Lemma lambda_handler_fetch_failed env d ob :
  startup env = inr tt ->
  truthy_list (fetched (api env)) = false ->
  lambda_handler env (mkworld d [] ob) =
  (inr (mkreply 500 (ErrorBody fetch_failed_msg)),
   mkworld (logged env (failed_row env fetch_failed_msg) d) []
     (ob ++ [ErrorNotification fetch_failed_msg (error_email_sent env)])).
Proof.
  intros Hs Hf. unfold lambda_handler, try_except, bind, lift.
  rewrite Hs, fetch_top_10_cryptocurrencies_run, Hf. simpl.
  rewrite fail_run_run. reflexivity.
Qed.

(** A run whose fetch and store both succeed. *)
Lemma lambda_handler_stored env d ob quotes w1 :
  startup env = inr tt ->
  fetched (api env) = Some quotes ->
  quotes <> [] ->
  store_crypto_data (store_env env) quotes (mkworld d [] ob) = (inr true, w1) ->
  lambda_handler env (mkworld d [] ob) =
  (inr (mkreply 200
          (SuccessBody (reply_utcnow env) (List.length quotes)
             (daily_email_sent env))),
   mkworld (logged env (success_row env (daily_email_sent env)) (db w1)) []
     (ob ++ [DailyDashboardEmail quotes (daily_email_sent env)])).
Proof.
  intros Hs Hf Hne Hstore.
  destruct (store_crypto_data_true _ _ _ _ _ Hstore) as (Htx & Hob & _).
  unfold lambda_handler, try_except, bind, lift.
  rewrite Hs, fetch_top_10_cryptocurrencies_run, Hf.
  destruct quotes as [|q qs]; [congruence|].
  change (negb (truthy_list (Some (q :: qs)))) with false.
  cbv beta iota. rewrite Hstore. cbn [negb]. cbv beta iota.
  unfold send_daily_dashboard_email.
  destruct w1 as [d1 tx1 ob1]. simpl in Htx, Hob. subst tx1 ob1.
  simpl db. simpl tx. simpl outbox.
  rewrite log_dashboard_update_run.
  unfold logged, success_row. simpl.
  destruct (db_up (log_env env)); reflexivity.
Qed.

(** A run that reports success went through fetch and store. *)
Lemma lambda_handler_200 env d ob r w' :
  lambda_handler env (mkworld d [] ob) = (inr r, w') ->
  statusCode r = 200 ->
  exists quotes w1,
    fetched (api env) = Some quotes /\ quotes <> [] /\
    store_crypto_data (store_env env) quotes (mkworld d [] ob) = (inr true, w1) /\
    w' = mkworld (logged env (success_row env (daily_email_sent env)) (db w1)) []
           (ob ++ [DailyDashboardEmail quotes (daily_email_sent env)]).
Proof.
  intros Hrun H200.
  destruct (startup env) as [e|[]] eqn:Hs.
  { unfold lambda_handler, try_except, bind, lift in Hrun.
    rewrite Hs in Hrun. simpl in Hrun. injection Hrun as <- <-.
    discriminate. }
  destruct (truthy_list (fetched (api env))) eqn:Hf.
  - destruct (fetched (api env)) as [[|q qs]|] eqn:Hq; try discriminate.
    destruct (store_crypto_data_total (store_env env) (q :: qs) d ob)
      as (b & w1 & Hstore & Hb).
    destruct b.
    + rewrite (lambda_handler_stored env d ob (q :: qs) w1 Hs Hq) in Hrun;
        [|discriminate|exact Hstore].
      injection Hrun as <- <-.
      exists (q :: qs), w1. repeat split; [discriminate|exact Hstore].
    + specialize (Hb eq_refl). subst w1.
      unfold lambda_handler, try_except, bind, lift in Hrun.
      rewrite Hs, fetch_top_10_cryptocurrencies_run, Hq in Hrun.
      change (negb (truthy_list (Some (q :: qs)))) with false in Hrun.
      cbv beta iota in Hrun. rewrite Hstore in Hrun.
      cbn [negb] in Hrun. cbv beta iota in Hrun.
      rewrite fail_run_run in Hrun. injection Hrun as <- <-. discriminate.
  - rewrite (lambda_handler_fetch_failed env d ob Hs Hf) in Hrun.
    injection Hrun as <- <-. discriminate.
Qed.

(** ** The primary key is an invariant *)

Lemma store_crypto_data_pk env crypto_list d ob :
  pk_unique d ->
  pk_unique (db (snd (store_crypto_data env crypto_list (mkworld d [] ob)))).
Proof.
  intro Hpk. rewrite store_crypto_data_run.
  destruct (db_up env); [|exact Hpk].
  destruct (flush (flush_utcnow env) d (batch_changes d (utcnow env) crypto_list))
    as [e|d'] eqn:Hf; [exact Hpk|].
  simpl. eapply flush_pk; eauto.
Qed.

Lemma log_dashboard_update_pk env status error_message email_sent top d ob :
  pk_unique d ->
  pk_unique (db (snd (log_dashboard_update env status error_message email_sent
                        top (mkworld d [] ob)))).
Proof.
  intro Hpk. rewrite log_dashboard_update_run.
  destruct (db_up env && (String.length status <=? 20)%nat); exact Hpk.
Qed.

Lemma empty_db_pk : pk_unique empty_db.
Proof. constructor. Qed.

(** ** C2: a batch is all or nothing *)

Lemma flush_refused now c post e : forall pre d dk,
  flush now d pre = inr dk ->
  apply_change now dk c = inl e ->
  flush now d (pre ++ c :: post) = inl e.
Proof.
  intros pre d dk Hpre Hc. rewrite flush_app, Hpre. simpl.
  rewrite Hc. reflexivity.
Qed.

(** C2.  If some change of the batch is refused after the ones before it
    were written (a row of the batch fails), [store_crypto_data] returns
    [False], the three tables are exactly as before the call, nothing is
    left in the session, and [get_latest_top_10] answers as it did before. *)
Theorem store_crypto_data_atomic env crypto_list d ob pre c post dk e :
  batch_changes d (utcnow env) crypto_list = pre ++ c :: post ->
  flush (flush_utcnow env) d pre = inr dk ->
  apply_change (flush_utcnow env) dk c = inl e ->
  exists w',
    store_crypto_data env crypto_list (mkworld d [] ob) = (inr false, w') /\
    db w' = d /\ tx w' = [] /\
    forall env',
      fst (get_latest_top_10 env' w') =
      fst (get_latest_top_10 env' (mkworld d [] ob)).
Proof.
  intros Hsplit Hpre Hc.
  exists (mkworld d [] ob). rewrite store_crypto_data_run, Hsplit.
  rewrite (flush_refused _ _ _ _ _ _ _ Hpre Hc).
  destruct (db_up env); repeat split; reflexivity.
Qed.

Lemma store_crypto_data_atomic_witness :
  exists w',
    store_crypto_data (env_at 101) batch_failing_at_7
      (mkworld db_after_first_run [] []) = (inr false, w') /\
    db w' = db_after_first_run /\ tx w' = [] /\
    forall env',
      fst (get_latest_top_10 env' w') =
      fst (get_latest_top_10 env' (mkworld db_after_first_run [] [])).
Proof.
  set (cs := batch_changes db_after_first_run (utcnow (env_at 101))
               batch_failing_at_7).
  apply (store_crypto_data_atomic (env_at 101) batch_failing_at_7
           db_after_first_run []
           (firstn 16 cs)
           (new_crypto_data
              (Quote.mk "usdc" "usdc" "USDC" None (Some (mkdec 100000 0))
                 (Some (mkdec 77 0)) (Some (mkdec 0 0)) (Some 7) None)
              (utcnow (env_at 101)))
           (skipn 17 cs)
           (match flush (flush_utcnow (env_at 101)) db_after_first_run
                    (firstn 16 cs) with
            | inr dk => dk
            | inl _ => empty_db
            end)
           IntegrityError).
  - vm_compute. reflexivity.
  - vm_compute. reflexivity.
  - vm_compute. reflexivity.
Defined.

(** ** C3: timestamp groups *)

Lemma logged_crypto_data env row d :
  crypto_data (logged env row d) = crypto_data d /\
  cryptocurrencies (logged env row d) = cryptocurrencies d.
Proof. unfold logged. destruct (db_up (log_env env)); split; reflexivity. Qed.




(** ** C4, C5, C10: the paths of the handler *)

(** C4.  When [fetch_top_10_cryptocurrencies] returns a falsy result
    ([None] or an empty list) and the server takes the log entry, the
    handler replies with statusCode 500 and has appended exactly one
    [DashboardUpdate] row, with status "failed", an error message and
    [email_sent = False]; the other two tables are untouched. *)
Theorem fetch_failure_logged_once env d ob crypto_data_ :
  startup env = inr tt ->
  fst (fetch_top_10_cryptocurrencies (api env) (mkworld d [] ob)) =
    inr crypto_data_ ->
  truthy_list crypto_data_ = false ->
  db_up (log_env env) = true ->
  exists w' row,
    lambda_handler env (mkworld d [] ob) =
      (inr (mkreply 500 (ErrorBody fetch_failed_msg)), w') /\
    dashboard_updates (db w') = dashboard_updates d ++ [row] /\
    DashboardUpdate.status row = "failed" /\
    DashboardUpdate.error_message row <> None /\
    DashboardUpdate.email_sent row = false /\
    crypto_data (db w') = crypto_data d /\
    cryptocurrencies (db w') = cryptocurrencies d.
Proof.
  intros Hs Hfetch Hfalsy Hup.
  rewrite fetch_top_10_cryptocurrencies_run in Hfetch. simpl in Hfetch.
  injection Hfetch as <-.
  rewrite (lambda_handler_fetch_failed env d ob Hs Hfalsy).
  eexists. exists (failed_row env fetch_failed_msg).
  split; [reflexivity|]. unfold logged. rewrite Hup. simpl.
  repeat split. discriminate.
Qed.

Lemma get_latest_top_10_same env w w' :
  crypto_data (db w) = crypto_data (db w') ->
  cryptocurrencies (db w) = cryptocurrencies (db w') ->
  fst (get_latest_top_10 env w) = fst (get_latest_top_10 env w').
Proof.
  intros E1 E2. rewrite !get_latest_top_10_run.
  unfold latest_timestamp_query, top_10_query. rewrite E1, E2.
  destruct (db_up env); [|reflexivity].
  destruct (map CryptoData.timestamp (crypto_data (db w'))); reflexivity.
Qed.

(** C5.  When the store succeeds and [send_daily_dashboard_email] returns
    [False], the handler still replies with statusCode 200; with the server
    taking the log entry, exactly one [DashboardUpdate] row is appended,
    with status "success", no error message and [email_sent = False]; the
    rows written by the store are all there and [get_latest_top_10] answers
    as it does right after the store. *)
Theorem notifier_failure_keeps_the_store env d ob quotes w1 :
  startup env = inr tt ->
  fst (fetch_top_10_cryptocurrencies (api env) (mkworld d [] ob)) =
    inr (Some quotes) ->
  truthy_list (Some quotes) = true ->
  store_crypto_data (store_env env) quotes (mkworld d [] ob) = (inr true, w1) ->
  fst (send_daily_dashboard_email (daily_email_sent env) quotes w1) =
    inr false ->
  db_up (log_env env) = true ->
  exists w' row rows,
    lambda_handler env (mkworld d [] ob) =
      (inr (mkreply 200
              (SuccessBody (reply_utcnow env) (List.length quotes) false)),
       w') /\
    dashboard_updates (db w') = dashboard_updates d ++ [row] /\
    DashboardUpdate.status row = "success" /\
    DashboardUpdate.error_message row = None /\
    DashboardUpdate.email_sent row = false /\
    crypto_data (db w') = crypto_data d ++ rows /\
    Forall2 (stored_as (utcnow (store_env env))) quotes rows /\
    crypto_data (db w') = crypto_data (db w1) /\
    cryptocurrencies (db w') = cryptocurrencies (db w1) /\
    forall env',
      fst (get_latest_top_10 env' w') = fst (get_latest_top_10 env' w1).
Proof.
  intros Hs Hfetch Htruthy Hstore Hmail Hup.
  rewrite fetch_top_10_cryptocurrencies_run in Hfetch. simpl in Hfetch.
  injection Hfetch as Hf.
  assert (Hne : quotes <> []).
  { intro E. subst quotes. discriminate. }
  assert (Hsent : daily_email_sent env = false).
  { unfold send_daily_dashboard_email in Hmail. simpl in Hmail. congruence. }
  destruct (store_crypto_data_true _ _ _ _ _ Hstore)
    as (_ & _ & Hdu & _ & _ & rows & Edata & Hrows).
  rewrite (lambda_handler_stored env d ob quotes w1 Hs Hf Hne Hstore).
  rewrite Hsent.
  eexists. exists (success_row env false), rows.
  split; [reflexivity|]. unfold logged. rewrite Hup. simpl.
  rewrite Hdu. repeat split; try assumption.
  intro env'. apply get_latest_top_10_same; reflexivity.
Qed.

(** C10.  A successful response whose array is empty makes the fetch return
    the empty list, and the handler then does exactly what it does when the
    request itself fails: statusCode 500, an error notification requested,
    no change to [crypto_data], and (the server taking the log entry) one
    [DashboardUpdate] row with status "failed". *)
Theorem empty_fetch_handled_as_failure env d ob status_code :
  startup env = inr tt ->
  api env = Response status_code (CoinArray []) ->
  raise_for_status status_code = inr tt ->
  fetch_top_10_cryptocurrencies (api env) (mkworld d [] ob) =
    (inr (Some []), mkworld d [] ob) /\
  fetch_top_10_cryptocurrencies RequestFailed (mkworld d [] ob) =
    (inr None, mkworld d [] ob) /\
  lambda_handler env (mkworld d [] ob) =
    lambda_handler (with_api env RequestFailed) (mkworld d [] ob) /\
  exists w',
    lambda_handler env (mkworld d [] ob) =
      (inr (mkreply 500 (ErrorBody fetch_failed_msg)), w') /\
    outbox w' =
      ob ++ [ErrorNotification fetch_failed_msg (error_email_sent env)] /\
    crypto_data (db w') = crypto_data d /\
    cryptocurrencies (db w') = cryptocurrencies d /\
    (db_up (log_env env) = true ->
     exists row,
       dashboard_updates (db w') = dashboard_updates d ++ [row] /\
       DashboardUpdate.status row = "failed" /\
       DashboardUpdate.email_sent row = false).
Proof.
  intros Hs Hapi Hstatus.
  assert (Hf : fetched (api env) = Some []).
  { rewrite Hapi. unfold fetched. unfold raise_for_status in Hstatus.
    destruct ((400 <=? status_code) && (status_code <? 600));
      [discriminate|reflexivity]. }
  rewrite !fetch_top_10_cryptocurrencies_run, Hf.
  split; [reflexivity|]. split; [reflexivity|].
  rewrite (lambda_handler_fetch_failed env d ob Hs);
    [|rewrite Hf; reflexivity].
  rewrite (lambda_handler_fetch_failed (with_api env RequestFailed) d ob);
    [|exact Hs|reflexivity].
  split; [reflexivity|].
  eexists. split; [reflexivity|]. simpl.
  destruct (logged_crypto_data env (failed_row env fetch_failed_msg) d)
    as [E1 E2].
  repeat split; try assumption.
  intro Hup. unfold logged. rewrite Hup. simpl.
  exists (failed_row env fetch_failed_msg). repeat split.
Qed.

(** ** C9: a failed log entry *)

(** C9.  After a successful [store_crypto_data], a [log_dashboard_update]
    that fails (the server does not answer, or the status does not fit its
    column) returns [False] and leaves the world exactly as the store left
    it: no [DashboardUpdate] row is appended and every [CryptoCurrency] and
    [CryptoData] row written by the store is still there. *)
Theorem log_failure_keeps_the_store senv quotes d ob w1
    lenv status error_message email_sent top_10_data :
  store_crypto_data senv quotes (mkworld d [] ob) = (inr true, w1) ->
  db_up lenv = false \/ (20 < String.length status)%nat ->
  exists rows,
    log_dashboard_update lenv status error_message email_sent top_10_data w1 =
      (inr false, w1) /\
    dashboard_updates (db w1) = dashboard_updates d /\
    crypto_data (db w1) = crypto_data d ++ rows /\
    Forall2 (stored_as (utcnow senv)) quotes rows /\
    Forall (fun q => has_currency (Quote.id q) (cryptocurrencies (db w1)) = true)
           quotes.
Proof.
  intros Hstore Hfail.
  destruct (store_crypto_data_true _ _ _ _ _ Hstore)
    as (Htx & Hob & Hdu & _ & Hfk & rows & Edata & Hrows).
  exists rows. repeat split; try assumption.
  destruct w1 as [d1 tx1 ob1]. simpl in Htx. subst tx1.
  rewrite log_dashboard_update_run.
  destruct Hfail as [Hdown|Hlong].
  - rewrite Hdown. reflexivity.
  - apply Nat.leb_gt in Hlong. rewrite Hlong, andb_false_r. reflexivity.
Qed.

(** ** C8: the retention purge *)

Lemma kept_data_all cutoff rows :
  cutoff < 0 ->
  Forall (fun r => 0 <= CryptoData.timestamp r) rows ->
  kept_data cutoff rows = rows.
Proof.
  intros Hc Hrows. apply filter_all.
  eapply Forall_impl; [|exact Hrows]. simpl. intros r Hr.
  apply negb_true_iff, Z.ltb_ge. lia.
Qed.

Lemma kept_updates_all cutoff rows :
  cutoff < 0 ->
  Forall (fun u => 0 <= DashboardUpdate.update_timestamp u) rows ->
  kept_updates cutoff rows = rows.
Proof.
  intros Hc Hrows. apply filter_all.
  eapply Forall_impl; [|exact Hrows]. simpl. intros r Hr.
  apply negb_true_iff, Z.ltb_ge. lia.
Qed.

(** [cleanup_old_data], run from a quiescent session. *)
Lemma cleanup_old_data_run env days_to_keep d ob :
  cleanup_old_data env days_to_keep (mkworld d [] ob) =
  let cutoff := utcnow env - days_to_keep * usec_per_day in
  if (- 999999999 <=? days_to_keep) && (days_to_keep <=? 999999999) &&
     ((0 <=? cutoff) && (cutoff <=? datetime_max)) && db_up env
  then (inr true,
        mkworld (mkdb (cryptocurrencies d) (kept_data cutoff (crypto_data d))
                   (kept_updates cutoff (dashboard_updates d))) [] ob)
  else (inr false, mkworld d [] ob).
Proof.
  unfold cleanup_old_data, try_except, bind, lift, bulk_delete, select,
    timedelta_days, datetime_sub, session_commit, session_add.
  destruct ((- 999999999 <=? days_to_keep) && (days_to_keep <=? 999999999));
    cbn [bindE andb]; [|reflexivity].
  destruct ((0 <=? utcnow env - days_to_keep * usec_per_day) &&
            (utcnow env - days_to_keep * usec_per_day <=? datetime_max));
    cbn [andb]; [|reflexivity].
  destruct (db_up env); reflexivity.
Qed.

(** C8.  For every retention value [days_to_keep >= 0], with the server
    answering and every clock reading and stored timestamp a [datetime]:
    after [cleanup_old_data] a [CryptoData] or [DashboardUpdate] row is
    there exactly when it was there before and its timestamp is not
    strictly earlier than [days_to_keep] days before now (the kept rows keep
    their order), [cryptocurrencies] is not touched, and the method returns
    [True] whenever that cutoff is itself a [datetime]. *)
Theorem cleanup_old_data_exact env days_to_keep d ob :
  db_up env = true ->
  0 <= days_to_keep ->
  0 <= utcnow env <= datetime_max ->
  Forall (fun r => 0 <= CryptoData.timestamp r) (crypto_data d) ->
  Forall (fun u => 0 <= DashboardUpdate.update_timestamp u)
         (dashboard_updates d) ->
  exists b w',
    cleanup_old_data env days_to_keep (mkworld d [] ob) = (inr b, w') /\
    (0 <= utcnow env - days_to_keep * usec_per_day -> b = true) /\
    tx w' = [] /\
    cryptocurrencies (db w') = cryptocurrencies d /\
    crypto_data (db w') =
      kept_data (utcnow env - days_to_keep * usec_per_day) (crypto_data d) /\
    dashboard_updates (db w') =
      kept_updates (utcnow env - days_to_keep * usec_per_day)
        (dashboard_updates d) /\
    (forall r, In r (crypto_data (db w')) <->
               In r (crypto_data d) /\
               utcnow env - days_to_keep * usec_per_day
                 <= CryptoData.timestamp r) /\
    (forall u, In u (dashboard_updates (db w')) <->
               In u (dashboard_updates d) /\
               utcnow env - days_to_keep * usec_per_day
                 <= DashboardUpdate.update_timestamp u).
Proof.
  intros Hup Hdays Hnow Hdata Hlog.
  rewrite cleanup_old_data_run. cbv zeta.
  set (cutoff := utcnow env - days_to_keep * usec_per_day).
  assert (Hday : usec_per_day = 86400000000) by reflexivity.
  assert (Hmax : datetime_max = 3652059 * 86400000000 - 1) by reflexivity.
  assert (Hin :
    (forall r, In r (kept_data cutoff (crypto_data d)) <->
               In r (crypto_data d) /\ cutoff <= CryptoData.timestamp r) /\
    (forall u, In u (kept_updates cutoff (dashboard_updates d)) <->
               In u (dashboard_updates d) /\
               cutoff <= DashboardUpdate.update_timestamp u)).
  { split; intro x; unfold kept_data, kept_updates;
      rewrite filter_In, negb_true_iff, Z.ltb_ge; reflexivity. }
  destruct Hin as [Hin1 Hin2].
  destruct (0 <=? cutoff) eqn:Hcut.
  - apply Z.leb_le in Hcut.
    assert (E : (- 999999999 <=? days_to_keep) && (days_to_keep <=? 999999999)
                && (true && (cutoff <=? datetime_max)) && db_up env = true).
    { rewrite Hup. rewrite !andb_true_iff.
      repeat split; try apply Z.leb_le; unfold cutoff in *; lia. }
    rewrite E. eexists. eexists. split; [reflexivity|].
    simpl. repeat (split; [solve [reflexivity|assumption|auto]|]).
    assumption.
  - apply Z.leb_gt in Hcut.
    rewrite andb_false_l, andb_false_r, andb_false_l.
    eexists. eexists. split; [reflexivity|]. simpl.
    split; [lia|]. repeat (split; [reflexivity|]).
    split; [symmetry; apply kept_data_all; assumption|].
    split; [symmetry; apply kept_updates_all; assumption|].
    split; intro x.
    + rewrite <- (kept_data_all cutoff (crypto_data d) Hcut Hdata) at 1.
      apply Hin1.
    + rewrite <- (kept_updates_all cutoff (dashboard_updates d) Hcut Hlog) at 1.
      apply Hin2.
Qed.

(** [cleanup_old_data(30)] on snapshots aged 5, 35 and 65 days removes the
    35- and 65-day rows only. *)
Lemma cleanup_old_data_exact_witness :
  exists w',
    cleanup_old_data (env_at 739000) 30 (mkworld (db_aged 739000) [] []) =
      (inr true, w') /\
    crypto_data (db w') = [snapshot_aged 739000 5] /\
    dashboard_updates (db w') = [log_aged 739000 5].
Proof.
  destruct (cleanup_old_data_exact (env_at 739000) 30 (db_aged 739000) [])
    as (b & w' & Hrun & Hb & _ & _ & Hdata & Hlog & _).
  - reflexivity.
  - lia.
  - vm_compute. split; discriminate.
  - apply (Forall_of_forallb (fun r => 0 <=? CryptoData.timestamp r));
      [intros r; apply Z.leb_le|vm_compute; reflexivity].
  - apply (Forall_of_forallb
             (fun u => 0 <=? DashboardUpdate.update_timestamp u));
      [intros r; apply Z.leb_le|vm_compute; reflexivity].
  - exists w'. rewrite Hb in Hrun; [|vm_compute; discriminate].
    split; [exact Hrun|]. rewrite Hdata, Hlog.
    split; vm_compute; reflexivity.
Defined.

(** ** C6: what the fetcher returns *)

Lemma transform_coin_normalized coin : normalized coin (transform_coin coin).
Proof.
  unfold normalized, transform_coin; simpl.
  repeat (split; [reflexivity|]). split.
  - intros ->. reflexivity.
  - intros c ->. unfold or_zero, truthy_num.
    destruct (dmant c =? 0) eqn:E; simpl.
    + exists py_zero. split; [reflexivity|].
      apply Z.eqb_eq in E. unfold dec_eq, py_zero. simpl. rewrite E. lia.
    + exists c. split; reflexivity.
Qed.

(** C6 as first stated does not hold: on a passing response holding a single
    coin the fetch succeeds with one quote, so not every successful response
    yields ten. *)
Lemma fetch_returns_what_it_gets :
  fetch_top_10_cryptocurrencies
    (Response 200 (CoinArray [sample_coin "bitcoin" 1 4325012]))
    (start empty_db) =
  (inr (Some [Quote.mk "bitcoin" "bitcoin" "BITCOIN" (Some (mkdec 4325012 2))
                (Some (mkdec 4325012000 0)) (Some (mkdec 77 0))
                (Some py_zero) (Some 1) None]),
   start empty_db) /\
  ~ (forall status_code coins quotes w,
       raise_for_status status_code = inr tt ->
       fst (fetch_top_10_cryptocurrencies
              (Response status_code (CoinArray coins)) w) = inr (Some quotes) ->
       List.length quotes = 10%nat).
Proof.
  split; [reflexivity|].
  intro H.
  specialize (H 200 [sample_coin "bitcoin" 1 4325012]
                (map transform_coin [sample_coin "bitcoin" 1 4325012])
                (start empty_db) eq_refl eq_refl).
  discriminate H.
Qed.

(** C6, amended.  On every response with a passing status whose body is an
    array of coins, the fetch returns one normalized quote per element of
    the array, in the array's order (ten when the array holds the ten items
    asked for), each carrying id, name, symbol, price, market cap, volume,
    24h change and rank, a null 24h change having become 0. *)
Theorem fetch_normalizes_every_coin status_code coins w :
  raise_for_status status_code = inr tt ->
  exists quotes,
    fetch_top_10_cryptocurrencies (Response status_code (CoinArray coins)) w =
      (inr (Some quotes), w) /\
    List.length quotes = List.length coins /\
    (List.length coins = 10%nat -> List.length quotes = 10%nat) /\
    Forall2 normalized coins quotes.
Proof.
  intro Hstatus. exists (map transform_coin coins).
  rewrite fetch_top_10_cryptocurrencies_run. unfold fetched.
  unfold raise_for_status in Hstatus.
  destruct ((400 <=? status_code) && (status_code <? 600)); [discriminate|].
  split; [reflexivity|]. rewrite length_map.
  split; [reflexivity|]. split; [auto|].
  induction coins as [|c coins IH]; simpl; constructor.
  - apply transform_coin_normalized.
  - exact IH.
Qed.

Lemma fetch_normalizes_every_coin_witness :
  exists quotes,
    fetch_top_10_cryptocurrencies (Response 200 (CoinArray sample_coins))
      (start empty_db) = (inr (Some quotes), start empty_db) /\
    List.length quotes = List.length sample_coins /\
    (List.length sample_coins = 10%nat -> List.length quotes = 10%nat) /\
    Forall2 normalized sample_coins quotes.
Proof.
  apply (fetch_normalizes_every_coin 200 sample_coins (start empty_db)).
  reflexivity.
Defined.

(** ** C7: what the handler logs on success *)

(** C7, on the sample run: the fetch yields ten quotes, the run reports
    success, and the one row logged has status "success", no error message
    and the notifier's result, but no snapshot: [top_10_data] is NULL
    because the handler calls [log_dashboard_update] without it. *)
Theorem lambda_handler_logs_no_snapshot :
  exists quotes w',
    fetched (api sample_run) = Some quotes /\
    List.length quotes = 10%nat /\
    lambda_handler sample_run (start empty_db) =
      (inr (mkreply 200 (SuccessBody (at_day 739000 600000) 10 true)), w') /\
    dashboard_updates (db w') =
      [DashboardUpdate.mk (at_day 739000 500000) "success" None true None] /\
    map DashboardUpdate.top_10_data (dashboard_updates (db w')) <>
      [Some (json_dumps quotes)].
Proof.
  eexists. eexists.
  split; [reflexivity|]. split; [reflexivity|].
  split; [vm_compute; reflexivity|].
  split; [reflexivity|]. discriminate.
Qed.

(** ** The theorems at the sample data *)

(** Distinctness of the members of a literal list. *)
Ltac distinct :=
  repeat (constructor; [simpl; intuition discriminate|]); constructor.



Lemma fetch_failure_logged_once_witness :
  exists w' row,
    lambda_handler (with_api sample_run RequestFailed)
      (mkworld db_after_first_run [] []) =
      (inr (mkreply 500 (ErrorBody fetch_failed_msg)), w') /\
    dashboard_updates (db w') = dashboard_updates db_after_first_run ++ [row] /\
    DashboardUpdate.status row = "failed" /\
    DashboardUpdate.error_message row <> None /\
    DashboardUpdate.email_sent row = false /\
    crypto_data (db w') = crypto_data db_after_first_run /\
    cryptocurrencies (db w') = cryptocurrencies db_after_first_run.
Proof.
  apply (fetch_failure_logged_once (with_api sample_run RequestFailed)
           db_after_first_run [] None).
  - reflexivity.
  - reflexivity.
  - reflexivity.
  - reflexivity.
Defined.

Lemma notifier_failure_keeps_the_store_witness :
  exists w' row,
    lambda_handler run_without_email (mkworld empty_db [] []) =
      (inr (mkreply 200 (SuccessBody (at_day 739000 600000) 10 false)), w') /\
    dashboard_updates (db w') = [row] /\
    DashboardUpdate.status row = "success" /\
    DashboardUpdate.email_sent row = false /\
    List.length (crypto_data (db w')) = 10%nat.
Proof.
  destruct (notifier_failure_keeps_the_store run_without_email empty_db []
              (map transform_coin sample_coins)
              (snd (store_crypto_data (env_at 739000)
                      (map transform_coin sample_coins)
                      (mkworld empty_db [] []))))
    as (w' & row & rows & Hrun & Hdu & Hst & _ & Hsent & Hdata & Hrows & _).
  - reflexivity.
  - reflexivity.
  - reflexivity.
  - vm_compute. reflexivity.
  - vm_compute. reflexivity.
  - reflexivity.
  - exists w', row. split; [exact Hrun|].
    split; [exact Hdu|]. split; [exact Hst|]. split; [exact Hsent|].
    rewrite Hdata. simpl. rewrite <- (Forall2_length Hrows). reflexivity.
Defined.

Lemma empty_fetch_handled_as_failure_witness :
  lambda_handler (with_api sample_run (Response 200 (CoinArray [])))
    (mkworld db_after_first_run [] []) =
  lambda_handler (with_api sample_run RequestFailed)
    (mkworld db_after_first_run [] []).
Proof.
  destruct (empty_fetch_handled_as_failure
              (with_api sample_run (Response 200 (CoinArray [])))
              db_after_first_run [] 200)
    as (_ & _ & H & _).
  - reflexivity.
  - reflexivity.
  - reflexivity.
  - exact H.
Defined.

Lemma log_failure_keeps_the_store_witness :
  log_dashboard_update (mkenv (at_day 100 1) (at_day 100 2) false)
    "success" None true None
    (snd (store_crypto_data (env_at 100) sample_batch (start empty_db))) =
  (inr false,
   snd (store_crypto_data (env_at 100) sample_batch (start empty_db))).
Proof.
  destruct (log_failure_keeps_the_store (env_at 100) sample_batch empty_db []
              (snd (store_crypto_data (env_at 100) sample_batch
                      (start empty_db)))
              (mkenv (at_day 100 1) (at_day 100 2) false)
              "success" None true None)
    as (rows & H & _).
  - vm_compute. reflexivity.
  - left. reflexivity.
  - exact H.
Defined.

(* ================================================================== *)
(** * Further properties of the code *)
(* ================================================================== *)

(** ** The handler, case by case *)

Lemma lambda_handler_startup_failed env w e :
  startup env = inl e ->
  lambda_handler env w = (inr (mkreply 500 (UnexpectedBody e)), w).
Proof.
  intro Hs. unfold lambda_handler, try_except, bind, lift.
  rewrite Hs. reflexivity.
Qed.

Lemma lambda_handler_store_failed env d ob quotes :
  startup env = inr tt ->
  fetched (api env) = Some quotes ->
  quotes <> [] ->
  store_crypto_data (store_env env) quotes (mkworld d [] ob) =
    (inr false, mkworld d [] ob) ->
  lambda_handler env (mkworld d [] ob) =
  (inr (mkreply 500 (ErrorBody store_failed_msg)),
   mkworld (logged env (failed_row env store_failed_msg) d) []
     (ob ++ [ErrorNotification store_failed_msg (error_email_sent env)])).
Proof.
  intros Hs Hf Hne Hstore.
  unfold lambda_handler, try_except, bind, lift.
  rewrite Hs, fetch_top_10_cryptocurrencies_run, Hf.
  destruct quotes as [|q qs]; [congruence|].
  change (negb (truthy_list (Some (q :: qs)))) with false.
  cbv beta iota. rewrite Hstore. cbn [negb]. cbv beta iota.
  rewrite fail_run_run. reflexivity.
Qed.

(** The four ways a run can go. *)
Lemma lambda_handler_cases env d ob :
  (exists e, startup env = inl e /\
     lambda_handler env (mkworld d [] ob) =
       (inr (mkreply 500 (UnexpectedBody e)), mkworld d [] ob)) \/
  (startup env = inr tt /\ truthy_list (fetched (api env)) = false /\
     lambda_handler env (mkworld d [] ob) =
       (inr (mkreply 500 (ErrorBody fetch_failed_msg)),
        mkworld (logged env (failed_row env fetch_failed_msg) d) []
          (ob ++ [ErrorNotification fetch_failed_msg (error_email_sent env)]))) \/
  (startup env = inr tt /\
   exists quotes,
     fetched (api env) = Some quotes /\ quotes <> [] /\
     store_crypto_data (store_env env) quotes (mkworld d [] ob) =
       (inr false, mkworld d [] ob) /\
     lambda_handler env (mkworld d [] ob) =
       (inr (mkreply 500 (ErrorBody store_failed_msg)),
        mkworld (logged env (failed_row env store_failed_msg) d) []
          (ob ++ [ErrorNotification store_failed_msg (error_email_sent env)]))) \/
  (startup env = inr tt /\
   exists quotes w1,
     fetched (api env) = Some quotes /\ quotes <> [] /\
     store_crypto_data (store_env env) quotes (mkworld d [] ob) =
       (inr true, w1) /\
     lambda_handler env (mkworld d [] ob) =
       (inr (mkreply 200
               (SuccessBody (reply_utcnow env) (List.length quotes)
                  (daily_email_sent env))),
        mkworld (logged env (success_row env (daily_email_sent env)) (db w1)) []
          (ob ++ [DailyDashboardEmail quotes (daily_email_sent env)]))).
Proof.
  destruct (startup env) as [e|[]] eqn:Hs.
  { left. exists e. split; [reflexivity|].
    apply lambda_handler_startup_failed. exact Hs. }
  right.
  destruct (truthy_list (fetched (api env))) eqn:Hf.
  - right.
    destruct (fetched (api env)) as [[|q qs]|] eqn:Hq; try discriminate.
    destruct (store_crypto_data_total (store_env env) (q :: qs) d ob)
      as (b & w1 & Hstore & Hb).
    destruct b.
    + right. split; [reflexivity|]. exists (q :: qs), w1.
      repeat split; try assumption; try discriminate.
      apply (lambda_handler_stored env d ob (q :: qs) w1); try assumption.
      discriminate.
    + left. specialize (Hb eq_refl). subst w1.
      split; [reflexivity|]. exists (q :: qs).
      repeat split; try assumption; try discriminate.
      apply (lambda_handler_store_failed env d ob (q :: qs)); try assumption.
      discriminate.
  - left. split; [reflexivity|]. split; [reflexivity|].
    apply lambda_handler_fetch_failed; assumption.
Qed.

(** ** What a store refuses *)

Lemma stored_as_not_null ts q row : stored_as ts q row -> ~ missing_number q.
Proof.
  unfold stored_as, crypto_data_row, missing_number. intros H Hm.
  destruct (Quote.price_usd q) as [p|]; simpl in H; [|discriminate].
  destruct (numeric 20 8 p); simpl in H; [discriminate|].
  destruct (Quote.market_cap_usd q) as [m|]; simpl in H; [|discriminate].
  destruct (numeric 20 2 m); simpl in H; [discriminate|].
  destruct (Quote.volume_24h_usd q) as [v|]; simpl in H; [|discriminate].
  destruct (numeric 20 2 v); simpl in H; [discriminate|].
  destruct (Quote.price_change_24h_percent q) as [c|]; simpl in H;
    [|discriminate].
  destruct (numeric 10 4 c); simpl in H; [discriminate|].
  destruct (Quote.market_cap_rank q) as [r|]; simpl in H; [|discriminate].
  destruct Hm as [Hm|[Hm|[Hm|[Hm|Hm]]]]; discriminate.
Qed.

Lemma Forall2_In_l {A B} (R : A -> B -> Prop) l l' x :
  Forall2 R l l' -> In x l -> exists y, In y l' /\ R x y.
Proof.
  induction 1 as [|a b l l' Hab _ IH]; intros Hin; [contradiction|].
  destruct Hin as [<-|Hin].
  - exists b. split; [left; reflexivity|exact Hab].
  - destruct (IH Hin) as (y & Hy & HR). exists y. split; [right|]; assumption.
Qed.

Lemma store_missing_number env crypto_list d ob q :
  In q crypto_list ->
  missing_number q ->
  store_crypto_data env crypto_list (mkworld d [] ob) =
    (inr false, mkworld d [] ob).
Proof.
  intros Hin Hmiss.
  destruct (store_crypto_data_total env crypto_list d ob)
    as (b & w' & Hstore & Hb).
  destruct b.
  - exfalso.
    destruct (store_crypto_data_true _ _ _ _ _ Hstore)
      as (_ & _ & _ & _ & _ & rows & _ & Hrows).
    destruct (Forall2_In_l _ _ _ _ Hrows Hin) as (row & _ & Hs).
    exact (stored_as_not_null _ _ _ Hs Hmiss).
  - rewrite Hstore, (Hb eq_refl). reflexivity.
Qed.

(** X2.  A batch in which some quote lacks a number that [crypto_data]
    requires (price, market cap, volume, 24h change or rank is null) is
    refused as a whole: [store_crypto_data] returns [False] and the world is
    exactly as before, whatever the other quotes are. *)
Theorem store_rejects_missing_number env crypto_list d ob q :
  In q crypto_list ->
  missing_number q ->
  store_crypto_data env crypto_list (mkworld d [] ob) =
    (inr false, mkworld d [] ob).
Proof.
  intros Hin Hmiss.
  destruct (store_crypto_data_total env crypto_list d ob)
    as (b & w' & Hstore & Hb).
  destruct b; [exfalso|rewrite Hstore, (Hb eq_refl); reflexivity].
  destruct (store_crypto_data_true _ _ _ _ _ Hstore)
    as (_ & _ & _ & _ & _ & rows & _ & Hrows).
  destruct (Forall2_In_l _ _ _ _ Hrows Hin) as (row & _ & Hs).
  exact (stored_as_not_null _ _ _ Hs Hmiss).
Qed.

Lemma store_rejects_missing_number_witness :
  store_crypto_data (env_at 101) batch_failing_at_7
    (mkworld db_after_first_run [] []) =
  (inr false, mkworld db_after_first_run [] []).
Proof.
  apply (store_rejects_missing_number (env_at 101) batch_failing_at_7
           db_after_first_run []
           (Quote.mk "usdc" "usdc" "USDC" None (Some (mkdec 100000 0))
              (Some (mkdec 77 0)) (Some (mkdec 0 0)) (Some 7) None)).
  - vm_compute. do 6 right. left. reflexivity.
  - left. reflexivity.
Defined.

(** ** More paths of the handler *)

(** X3.  When the fetch returns a non-empty list and [store_crypto_data]
    returns [False], the handler replies with statusCode 500 and the store
    message, requests one error notification, leaves [crypto_data] and
    [cryptocurrencies] as they were and, the server taking the log entry,
    appends exactly one [DashboardUpdate] row with status "failed", that
    message and [email_sent = False]. *)
Theorem store_failure_logged_once env d ob quotes :
  startup env = inr tt ->
  fst (fetch_top_10_cryptocurrencies (api env) (mkworld d [] ob)) =
    inr (Some quotes) ->
  truthy_list (Some quotes) = true ->
  fst (store_crypto_data (store_env env) quotes (mkworld d [] ob)) =
    inr false ->
  db_up (log_env env) = true ->
  exists w',
    lambda_handler env (mkworld d [] ob) =
      (inr (mkreply 500 (ErrorBody store_failed_msg)), w') /\
    outbox w' =
      ob ++ [ErrorNotification store_failed_msg (error_email_sent env)] /\
    dashboard_updates (db w') =
      dashboard_updates d ++
      [DashboardUpdate.mk (flush_utcnow (log_env env)) "failed"
         (Some store_failed_msg) false None] /\
    crypto_data (db w') = crypto_data d /\
    cryptocurrencies (db w') = cryptocurrencies d.
Proof.
  intros Hs Hfetch Htruthy Hstore Hup.
  rewrite fetch_top_10_cryptocurrencies_run in Hfetch. simpl in Hfetch.
  injection Hfetch as Hf.
  assert (Hne : quotes <> []).
  { intro E. subst quotes. discriminate. }
  destruct (store_crypto_data_total (store_env env) quotes d ob)
    as (b & w1 & Hrun & Hb).
  rewrite Hrun in Hstore. simpl in Hstore. injection Hstore as ->.
  rewrite (Hb eq_refl) in Hrun.
  rewrite (lambda_handler_store_failed env d ob quotes Hs Hf Hne Hrun).
  eexists. split; [reflexivity|]. unfold logged. rewrite Hup. simpl.
  repeat split.
Qed.

Lemma store_failure_logged_once_witness :
  exists w',
    lambda_handler run_with_null_price (mkworld db_after_first_run [] []) =
      (inr (mkreply 500 (ErrorBody store_failed_msg)), w') /\
    outbox w' = [ErrorNotification store_failed_msg true] /\
    crypto_data (db w') = crypto_data db_after_first_run.
Proof.
  destruct (store_failure_logged_once run_with_null_price db_after_first_run
              [] (map transform_coin coins_with_null_price))
    as (w' & Hrun & Hout & _ & Hdata & _).
  - reflexivity.
  - reflexivity.
  - reflexivity.
  - vm_compute. reflexivity.
  - reflexivity.
  - exists w'. split; [exact Hrun|]. split; [exact Hout|exact Hdata].
Defined.

(** X4.  A response in which some coin comes with a null price, market cap,
    volume or rank makes the whole run fail at the store: statusCode 500
    with the store message, and not one row of the batch in [crypto_data]
    or [cryptocurrencies]. *)
Theorem null_field_fails_the_run env d ob status_code coins coin :
  startup env = inr tt ->
  api env = Response status_code (CoinArray coins) ->
  raise_for_status status_code = inr tt ->
  In coin coins ->
  Coin.current_price coin = None \/ Coin.market_cap coin = None \/
  Coin.total_volume coin = None \/ Coin.market_cap_rank coin = None ->
  exists w',
    lambda_handler env (mkworld d [] ob) =
      (inr (mkreply 500 (ErrorBody store_failed_msg)), w') /\
    crypto_data (db w') = crypto_data d /\
    cryptocurrencies (db w') = cryptocurrencies d.
Proof.
  intros Hs Hapi Hstatus Hin Hnull.
  assert (Hf : fetched (api env) = Some (map transform_coin coins)).
  { rewrite Hapi. unfold fetched. unfold raise_for_status in Hstatus.
    destruct ((400 <=? status_code) && (status_code <? 600));
      [discriminate|reflexivity]. }
  assert (Hne : map transform_coin coins <> []).
  { destruct coins; [contradiction|discriminate]. }
  assert (Hstore :
    store_crypto_data (store_env env) (map transform_coin coins)
      (mkworld d [] ob) = (inr false, mkworld d [] ob)).
  { apply (store_missing_number _ _ _ _ (transform_coin coin)).
    - apply in_map. exact Hin.
    - unfold missing_number, transform_coin; simpl. tauto. }
  rewrite (lambda_handler_store_failed env d ob _ Hs Hf Hne Hstore).
  eexists. split; [reflexivity|]. simpl.
  apply logged_crypto_data.
Qed.

Lemma null_field_fails_the_run_witness :
  exists w',
    lambda_handler run_with_null_price (mkworld db_after_first_run [] []) =
      (inr (mkreply 500 (ErrorBody store_failed_msg)), w') /\
    crypto_data (db w') = crypto_data db_after_first_run /\
    cryptocurrencies (db w') = cryptocurrencies db_after_first_run.
Proof.
  refine (null_field_fails_the_run run_with_null_price db_after_first_run []
            200 coins_with_null_price
            (Coin.mk "usdc" "USDC" "usdc" None (Some (mkdec 100000 0))
               (Some (mkdec 77 0)) None (Some 7) None) _ _ _ _ _).
  - reflexivity.
  - reflexivity.
  - reflexivity.
  - vm_compute. do 6 right. left. reflexivity.
  - left. reflexivity.
Defined.

Lemma fetched_some api quotes :
  fetched api = Some quotes ->
  exists status_code coins,
    api = Response status_code (CoinArray coins) /\
    raise_for_status status_code = inr tt /\
    quotes = map transform_coin coins.
Proof.
  unfold fetched.
  destruct api as [|status_code [| |coins]]; try discriminate.
  destruct ((400 <=? status_code) && (status_code <? 600)) eqn:E;
    [discriminate|].
  intro H. injection H as <-. exists status_code, coins.
  unfold raise_for_status. rewrite E. repeat split.
Qed.

(** X5.  [lambda_handler] never raises and replies with statusCode 200 or
    500; it replies 200 exactly when the startup went through, the fetch
    returned a non-empty list and [store_crypto_data] returned [True] on it.
    Neither the notifier's result nor the outcome of the log entry changes
    the reported status. *)
Theorem success_reported_iff_stored env d ob :
  exists r w',
    lambda_handler env (mkworld d [] ob) = (inr r, w') /\
    (statusCode r = 200 \/ statusCode r = 500) /\
    (statusCode r = 200 <->
     startup env = inr tt /\
     exists quotes,
       fst (fetch_top_10_cryptocurrencies (api env) (mkworld d [] ob)) =
         inr (Some quotes) /\
       quotes <> [] /\
       fst (store_crypto_data (store_env env) quotes (mkworld d [] ob)) =
         inr true).
Proof.
  rewrite fetch_top_10_cryptocurrencies_run. simpl fst.
  destruct (lambda_handler_cases env d ob)
    as [(e & Hs & ->)|[(Hs & Hf & ->)|[(Hs & q & Hq & Hne & Hstore & ->)
       |(Hs & q & w1 & Hq & Hne & Hstore & ->)]]];
    eexists; eexists; (split; [reflexivity|]); simpl.
  - split; [right; reflexivity|]. split; [discriminate|].
    intros [Hs' _]. congruence.
  - split; [right; reflexivity|]. split; [discriminate|].
    intros (_ & q & Hq & Hne & _). injection Hq as Hq.
    rewrite Hq in Hf. destruct q; [congruence|discriminate].
  - split; [right; reflexivity|]. split; [discriminate|].
    intros (_ & q' & Hq' & _ & Hst). injection Hq' as Hq'.
    rewrite Hq in Hq'. injection Hq' as <-.
    rewrite Hstore in Hst. discriminate.
  - split; [left; reflexivity|]. split; [|reflexivity].
    intros _. split; [exact Hs|]. exists q. rewrite Hq, Hstore.
    repeat split. exact Hne.
Qed.

(** X6.  A run whose startup went through requests exactly one notification:
    the daily email when it replies 200, an error notification (and no new
    [crypto_data] row) when it replies 500.  It only appends to
    [crypto_data].  It appends exactly one [DashboardUpdate] row, whose
    status matches the reply and whose snapshot is null, when the server
    takes the log entry, and none when it does not; the reply is the same
    either way. *)
Theorem run_effects env d ob :
  startup env = inr tt ->
  exists r w' n rows,
    lambda_handler env (mkworld d [] ob) = (inr r, w') /\
    outbox w' = ob ++ [n] /\
    crypto_data (db w') = crypto_data d ++ rows /\
    ((statusCode r = 200 /\
      exists quotes, n = DailyDashboardEmail quotes (daily_email_sent env)) \/
     (statusCode r = 500 /\ rows = [] /\
      exists msg, n = ErrorNotification msg (error_email_sent env))) /\
    (db_up (log_env env) = true ->
     exists row,
       dashboard_updates (db w') = dashboard_updates d ++ [row] /\
       DashboardUpdate.status row =
         (if statusCode r =? 200 then "success" else "failed") /\
       DashboardUpdate.top_10_data row = None) /\
    (db_up (log_env env) = false ->
     dashboard_updates (db w') = dashboard_updates d).
Proof.
  intro Hs.
  destruct (lambda_handler_cases env d ob)
    as [(e & Hs' & _)|[(_ & Hf & ->)|[(_ & q & Hq & Hne & Hstore & ->)
       |(_ & q & w1 & Hq & Hne & Hstore & ->)]]].
  - congruence.
  - eexists. eexists. eexists. exists [].
    split; [reflexivity|]. simpl. split; [reflexivity|].
    destruct (logged_crypto_data env (failed_row env fetch_failed_msg) d)
      as [-> _].
    split; [rewrite app_nil_r; reflexivity|].
    split; [right; repeat split; eexists; reflexivity|].
    unfold logged. split; intros ->; simpl; [|reflexivity].
    eexists. repeat split.
  - eexists. eexists. eexists. exists [].
    split; [reflexivity|]. simpl. split; [reflexivity|].
    destruct (logged_crypto_data env (failed_row env store_failed_msg) d)
      as [-> _].
    split; [rewrite app_nil_r; reflexivity|].
    split; [right; repeat split; eexists; reflexivity|].
    unfold logged. split; intros ->; simpl; [|reflexivity].
    eexists. repeat split.
  - destruct (store_crypto_data_true _ _ _ _ _ Hstore)
      as (_ & _ & Hdu & _ & _ & rows & Edata & _).
    eexists. eexists. eexists. exists rows.
    split; [reflexivity|]. simpl. split; [reflexivity|].
    destruct (logged_crypto_data env
                (success_row env (daily_email_sent env)) (db w1)) as [-> _].
    split; [exact Edata|].
    split; [left; split; [reflexivity|eexists; reflexivity]|].
    unfold logged. split; intros ->; simpl; [|exact Hdu].
    rewrite Hdu. eexists. repeat split.
Qed.

Lemma run_effects_witness :
  exists r w' n rows,
    lambda_handler run_with_null_price (mkworld db_after_first_run [] []) =
      (inr r, w') /\
    outbox w' = [n] /\
    crypto_data (db w') = crypto_data db_after_first_run ++ rows.
Proof.
  destruct (run_effects run_with_null_price db_after_first_run [])
    as (r & w' & n & rows & Hrun & Hout & Hdata & _).
  - reflexivity.
  - exists r, w', n, rows. repeat split; assumption.
Defined.

(** X7.  In a run that replies 200, the count [cryptocurrencies_updated] of
    the reply is the number of coins of the response and the number of
    [crypto_data] rows the run appended, and [email_sent] is the notifier's
    result. *)
Theorem success_reply_counts_rows env d ob r w' :
  lambda_handler env (mkworld d [] ob) = (inr r, w') ->
  statusCode r = 200 ->
  exists status_code coins rows,
    api env = Response status_code (CoinArray coins) /\
    body r = SuccessBody (reply_utcnow env) (List.length coins)
               (daily_email_sent env) /\
    crypto_data (db w') = crypto_data d ++ rows /\
    List.length rows = List.length coins.
Proof.
  intros Hrun H200.
  destruct (lambda_handler_200 _ _ _ _ _ Hrun H200)
    as (quotes & w1 & Hf & _ & Hstore & ->).
  destruct (fetched_some _ _ Hf) as (status_code & coins & Hapi & _ & ->).
  destruct (store_crypto_data_true _ _ _ _ _ Hstore)
    as (_ & _ & _ & _ & _ & rows & Edata & Hrows).
  exists status_code, coins, rows. simpl db.
  destruct (logged_crypto_data env
              (success_row env (daily_email_sent env)) (db w1)) as [-> _].
  split; [exact Hapi|].
  rewrite (lambda_handler_stored env d ob (map transform_coin coins) w1)
    in Hrun; try assumption.
  - apply (f_equal fst) in Hrun. simpl in Hrun. injection Hrun as <-.
    rewrite length_map.
    split; [reflexivity|]. split; [exact Edata|].
    rewrite <- (Forall2_length Hrows), length_map. reflexivity.
  - destruct (startup env) as [e|[]] eqn:Hs; [|reflexivity].
    rewrite (lambda_handler_startup_failed env _ e Hs) in Hrun.
    apply (f_equal fst) in Hrun. simpl in Hrun. injection Hrun as <-.
    discriminate.
  - intro E. apply map_eq_nil in E. subst coins.
    destruct (lambda_handler_200 _ _ _ _ _ Hrun H200)
      as (q' & _ & Hf' & Hne' & _).
    rewrite Hf in Hf'. injection Hf' as <-. apply Hne'. reflexivity.
Qed.

Lemma success_reply_counts_rows_witness :
  exists status_code coins rows,
    api second_run = Response status_code (CoinArray coins) /\
    body (mkreply 200 (SuccessBody (at_day 739001 600000) 3 false)) =
      SuccessBody (reply_utcnow second_run) (List.length coins)
        (daily_email_sent second_run) /\
    crypto_data (db world_after_second_run) =
      crypto_data (db world_after_sample_run) ++ rows /\
    List.length rows = List.length coins.
Proof.
  refine (success_reply_counts_rows second_run (db world_after_sample_run)
            (outbox world_after_sample_run)
            (mkreply 200 (SuccessBody (at_day 739001 600000) 3 false))
            world_after_second_run _ _).
  - vm_compute. reflexivity.
  - reflexivity.
Defined.

(** ** The store as an upsert *)

Lemma flush_ids_grow now cs : forall d d',
  flush now d cs = inr d' ->
  exists new_ids,
    map CryptoCurrency.id (cryptocurrencies d') =
    map CryptoCurrency.id (cryptocurrencies d) ++ new_ids.
Proof.
  induction cs as [|c cs IH]; simpl; intros d d' H.
  - injection H as <-. exists []. rewrite app_nil_r. reflexivity.
  - destruct (apply_change now d c) as [e|d1] eqn:Hc; simpl in H; [discriminate|].
    destruct (IH _ _ H) as [new E]. rewrite E.
    destruct (apply_change_ids _ _ _ _ Hc) as [E1|(i & _ & E1)]; rewrite E1.
    + exists new. reflexivity.
    + exists (i :: new). rewrite <- app_assoc. reflexivity.
Qed.

(** X8.  Whatever the batch and whatever the outcome, [store_crypto_data]
    never raises, leaves the session empty, does not touch
    [dashboard_updates], only appends to [crypto_data] (one row per quote
    when it returns [True]) and keeps every key of [cryptocurrencies] in
    place, new keys coming after; when it returns [False] the tables are
    exactly the ones before. *)
Theorem store_only_appends env crypto_list d ob :
  exists b w' rows new_ids,
    store_crypto_data env crypto_list (mkworld d [] ob) = (inr b, w') /\
    tx w' = [] /\ outbox w' = ob /\
    dashboard_updates (db w') = dashboard_updates d /\
    crypto_data (db w') = crypto_data d ++ rows /\
    map CryptoCurrency.id (cryptocurrencies (db w')) =
      map CryptoCurrency.id (cryptocurrencies d) ++ new_ids /\
    (b = true -> List.length rows = List.length crypto_list) /\
    (b = false -> db w' = d).
Proof.
  destruct (store_crypto_data_total env crypto_list d ob)
    as (b & w' & Hstore & Hb).
  destruct b.
  - destruct (store_crypto_data_true _ _ _ _ _ Hstore)
      as (Htx & Hob & Hdu & _ & _ & rows & Edata & Hrows).
    pose proof Hstore as Hrun. rewrite store_crypto_data_run in Hrun.
    destruct (db_up env); [|discriminate].
    destruct (flush (flush_utcnow env) d
                (batch_changes d (utcnow env) crypto_list))
      as [e|d'] eqn:Hf; [discriminate|].
    injection Hrun as <-.
    destruct (flush_ids_grow _ _ _ _ Hf) as [new_ids Eids].
    exists true, (mkworld d' [] ob), rows, new_ids.
    simpl in *. repeat split; try assumption; try discriminate.
    intros _. symmetry. apply (Forall2_length Hrows).
  - specialize (Hb eq_refl). subst w'.
    exists false, (mkworld d [] ob), [], [].
    simpl. rewrite !app_nil_r. repeat split; try assumption; discriminate.
Qed.

Lemma currency_phase_upsert now known ts l : forall dk d1,
  NoDup (map Quote.id l) ->
  (forall q, In q l ->
     has_currency (Quote.id q) (cryptocurrencies dk) = known (Quote.id q)) ->
  flush now dk (map (currency_change known ts) l) = inr d1 ->
  (forall q, In q l ->
     exists c, In c (cryptocurrencies d1) /\
       CryptoCurrency.id c = Quote.id q /\
       CryptoCurrency.name c = Quote.name q /\
       CryptoCurrency.symbol c = Quote.symbol q /\
       (known (Quote.id q) = true ->
        CryptoCurrency.updated_at c = ts /\
        exists c0, In c0 (cryptocurrencies dk) /\
                   CryptoCurrency.id c0 = Quote.id q /\
                   CryptoCurrency.created_at c = CryptoCurrency.created_at c0) /\
       (known (Quote.id q) = false ->
        CryptoCurrency.created_at c = now /\
        CryptoCurrency.updated_at c = now)) /\
  (forall c, In c (cryptocurrencies dk) ->
     ~ In (CryptoCurrency.id c) (map Quote.id l) ->
     In c (cryptocurrencies d1)).
Proof.
  induction l as [|q l IH]; simpl; intros dk d1 Hnd Hk Hflush.
  - injection Hflush as <-. split; [intros q []|auto].
  - inversion Hnd as [|? ? Hnotin Hnd']; subst.
    destruct (apply_change now dk (currency_change known ts q)) as [e|d0] eqn:Hc;
      simpl in Hflush; [discriminate|].
    pose proof (Hk q (or_introl eq_refl)) as Hkq.
    assert (Hstep :
      (exists cq, In cq (cryptocurrencies d0) /\
         CryptoCurrency.id cq = Quote.id q /\
         CryptoCurrency.name cq = Quote.name q /\
         CryptoCurrency.symbol cq = Quote.symbol q /\
         (known (Quote.id q) = true ->
          CryptoCurrency.updated_at cq = ts /\
          exists c0, In c0 (cryptocurrencies dk) /\
                     CryptoCurrency.id c0 = Quote.id q /\
                     CryptoCurrency.created_at cq = CryptoCurrency.created_at c0) /\
         (known (Quote.id q) = false ->
          CryptoCurrency.created_at cq = now /\
          CryptoCurrency.updated_at cq = now)) /\
      (forall c, In c (cryptocurrencies dk) ->
         CryptoCurrency.id c <> Quote.id q -> In c (cryptocurrencies d0)) /\
      (forall c, In c (cryptocurrencies d0) ->
         CryptoCurrency.id c <> Quote.id q -> In c (cryptocurrencies dk)) /\
      (forall q', In q' l ->
         has_currency (Quote.id q') (cryptocurrencies d0) =
         known (Quote.id q'))).
    { unfold currency_change in Hc.
      destruct (known (Quote.id q)) eqn:Kq; simpl in Hc.
      - unfold update_cryptocurrency in Hc. checks Hc.
        injection Hc as <-. simpl.
        apply has_currency_In, in_map_iff in Hkq.
        destruct Hkq as (c0 & E0 & Hin0).
        repeat split.
        + exists (CryptoCurrency.mk (CryptoCurrency.id c0) (Quote.name q)
                    (Quote.symbol q) (CryptoCurrency.created_at c0) ts).
          split.
          * apply in_map_iff. exists c0. split; [|exact Hin0].
            rewrite E0, String.eqb_refl. reflexivity.
          * simpl. repeat split; try assumption; try discriminate.
            exists c0. repeat split; assumption.
        + intros c Hin Hne. apply in_map_iff. exists c. split; [|exact Hin].
          apply String.eqb_neq in Hne. rewrite Hne. reflexivity.
        + intros c Hin Hne. apply in_map_iff in Hin.
          destruct Hin as (c' & Ec & Hin').
          destruct (String.eqb (CryptoCurrency.id c') (Quote.id q)) eqn:E.
          * apply String.eqb_eq in E. subst c. simpl in Hne. congruence.
          * subst c. exact Hin'.
        + intros q' Hq'. rewrite <- (Hk q' (or_intror Hq')).
          apply has_currency_ids. apply update_keeps_ids.
      - unfold insert_cryptocurrency in Hc. checks Hc.
        injection Hc as <-. simpl.
        repeat split.
        + exists (CryptoCurrency.mk (Quote.id q) (Quote.name q)
                    (Quote.symbol q) now now).
          split; [apply in_or_app; right; left; reflexivity|].
          simpl. repeat split; discriminate.
        + intros c Hin _. apply in_or_app. left. exact Hin.
        + intros c Hin Hne. apply in_app_or in Hin.
          destruct Hin as [Hin|[<-|[]]]; [exact Hin|].
          simpl in Hne. congruence.
        + intros q' Hq'. rewrite <- (Hk q' (or_intror Hq')).
          unfold has_currency. rewrite existsb_app. simpl.
          destruct (String.eqb (Quote.id q) (Quote.id q')) eqn:E.
          * apply String.eqb_eq in E. exfalso. apply Hnotin. rewrite E.
            apply in_map. exact Hq'.
          * rewrite !orb_false_r. reflexivity. }
    destruct Hstep as ((cq & Hcq & Pcq) & S2 & S3 & S4).
    destruct (IH d0 d1 Hnd' S4 Hflush) as [A B].
    split.
    + intros q' [<-|Hq'].
      * exists cq. split; [|exact Pcq].
        apply B; [exact Hcq|]. destruct Pcq as (-> & _). exact Hnotin.
      * destruct (A q' Hq') as (c & Hc1 & Ei & En & Es & Hold & Hnew).
        exists c. repeat split; try assumption.
        -- apply Hold. assumption.
        -- destruct (Hold H) as (_ & c0 & Hc0 & E0 & Ecr).
           exists c0. repeat split; try assumption.
           apply S3; [exact Hc0|]. rewrite E0. intro E. apply Hnotin.
           rewrite <- E. apply in_map. exact Hq'.
        -- apply Hnew. assumption.
        -- apply Hnew. assumption.
    + intros c Hin Hno. apply B.
      * apply S2; [exact Hin|]. intro E. apply Hno. left. symmetry. exact E.
      * intro H. apply Hno. right. exact H.
Qed.

(** X9.  After a successful store of a batch with distinct ids, every quote
    of the batch, whether its currency was stored before or not, has a row
    in [cryptocurrencies] with its id, name and symbol; a currency stored
    before keeps its [created_at] and has [updated_at] set to the call's
    timestamp; and every row of a currency that is not in the batch is
    still there unchanged. *)
Theorem store_upserts_currencies env crypto_list d ob w' :
  store_crypto_data env crypto_list (mkworld d [] ob) = (inr true, w') ->
  NoDup (map Quote.id crypto_list) ->
  (forall q, In q crypto_list ->
     exists c, In c (cryptocurrencies (db w')) /\ upserted d env q c) /\
  (forall c, In c (cryptocurrencies d) ->
     ~ In (CryptoCurrency.id c) (map Quote.id crypto_list) ->
     In c (cryptocurrencies (db w'))).
Proof.
  intros Hstore Hnd.
  rewrite store_crypto_data_run in Hstore.
  destruct (db_up env); [|discriminate].
  destruct (flush (flush_utcnow env) d (batch_changes d (utcnow env) crypto_list))
    as [e|d'] eqn:Hf; [discriminate|].
  injection Hstore as <-. simpl db.
  unfold batch_changes in Hf. apply flush_app_inv in Hf.
  destruct Hf as (d1 & H1 & H2).
  apply data_phase_shape in H2. destruct H2 as (E1 & _).
  rewrite E1.
  assert (Hk : forall q, In q crypto_list ->
            has_currency (Quote.id q) (cryptocurrencies d) =
            has_currency (Quote.id q)
              (query_existing (map Quote.id crypto_list) d)).
  { intros q Hq. symmetry. apply has_currency_query_existing.
    apply in_map. exact Hq. }
  destruct (currency_phase_upsert _ _ _ _ _ _ Hnd Hk H1) as [A B].
  split; [|exact B].
  intros q Hq. destruct (A q Hq) as (c & Hc & Ei & En & Es & Hold & Hnew).
  exists c. split; [exact Hc|]. unfold upserted.
  rewrite (Hk q Hq). repeat split; try assumption.
  - apply Hold. assumption.
  - apply Hold. assumption.
Qed.

(** At the sample data: four currencies are stored, three of them are in the
    batch of ten and seven of the batch are new. *)
Lemma store_upserts_currencies_witness :
  map (fun q => has_currency (Quote.id q) (cryptocurrencies db_with_four))
      sample_batch =
    [false; true; false; false; true; false; false; true; false; false] /\
  (forall q, In q sample_batch ->
     exists c,
       In c (cryptocurrencies
               (db (snd (store_crypto_data (env_at 101) sample_batch
                           (mkworld db_with_four [] []))))) /\
       upserted db_with_four (env_at 101) q c) /\
  (forall c, In c (cryptocurrencies db_with_four) ->
     ~ In (CryptoCurrency.id c) (map Quote.id sample_batch) ->
     In c (cryptocurrencies
             (db (snd (store_crypto_data (env_at 101) sample_batch
                         (mkworld db_with_four [] [])))))).
Proof.
  split; [vm_compute; reflexivity|].
  refine (store_upserts_currencies (env_at 101) sample_batch
            db_with_four [] _ _ _).
  - vm_compute. reflexivity.
  - distinct.
Defined.

Lemma duplicate_insert_fails now known ts i : forall l dk,
  has_currency i (cryptocurrencies dk) = true ->
  known i = false ->
  (exists q, In q l /\ Quote.id q = i) ->
  exists e, flush now dk (map (currency_change known ts) l) = inl e.
Proof.
  induction l as [|x l IH]; intros dk Hi Hk (q & Hq & Eq); [contradiction|].
  simpl.
  destruct (apply_change now dk (currency_change known ts x)) as [e|d0] eqn:Hc;
    simpl; [exists e; reflexivity|].
  destruct Hq as [->|Hq].
  - exfalso. unfold currency_change in Hc. rewrite Eq, Hk in Hc. simpl in Hc.
    unfold insert_cryptocurrency in Hc. checks Hc; congruence.
  - apply IH; [|exact Hk|exists q; auto].
    eapply apply_change_keeps_currency; eauto.
Qed.

(** X10.  A batch that names twice a currency not yet in [cryptocurrencies]
    is refused as a whole (the second insert meets the primary key):
    [store_crypto_data] returns [False] and the world is as before. *)
Theorem store_rejects_duplicate_new_id env l1 q l2 q' d ob :
  In q' l2 ->
  Quote.id q' = Quote.id q ->
  has_currency (Quote.id q) (cryptocurrencies d) = false ->
  store_crypto_data env (l1 ++ q :: l2) (mkworld d [] ob) =
    (inr false, mkworld d [] ob).
Proof.
  intros Hq' Eid Hnew. rewrite store_crypto_data_run.
  destruct (db_up env); [|reflexivity].
  set (known := fun i => has_currency i
                  (query_existing (map Quote.id (l1 ++ q :: l2)) d)).
  assert (Hk : known (Quote.id q) = false).
  { unfold known. rewrite has_currency_query_existing; [exact Hnew|].
    apply in_map. apply in_or_app. right. left. reflexivity. }
  assert (Hfail : exists e,
    flush (flush_utcnow env) d
      (batch_changes d (utcnow env) (l1 ++ q :: l2)) = inl e).
  { unfold batch_changes. fold known.
    rewrite map_app. simpl map. rewrite <- app_assoc. rewrite flush_app.
    destruct (flush (flush_utcnow env) d
                (map (currency_change known (utcnow env)) l1)) as [e|da];
      simpl; [exists e; reflexivity|].
    destruct (apply_change (flush_utcnow env) da
                (currency_change known (utcnow env) q)) as [e|db0] eqn:Hc;
      simpl; [exists e; reflexivity|].
    assert (Hin : has_currency (Quote.id q) (cryptocurrencies db0) = true).
    { unfold currency_change in Hc. rewrite Hk in Hc. simpl in Hc.
      unfold insert_cryptocurrency in Hc. checks Hc. injection Hc as <-.
      simpl. apply has_currency_In. rewrite map_app. apply in_or_app.
      right. left. reflexivity. }
    rewrite flush_app.
    destruct (duplicate_insert_fails (flush_utcnow env) known (utcnow env)
                (Quote.id q) l2 db0 Hin Hk) as [e He].
    { exists q'. auto. }
    rewrite He. exists e. reflexivity. }
  destruct Hfail as [e ->]. reflexivity.
Qed.

Lemma store_rejects_duplicate_new_id_witness :
  store_crypto_data (env_at 100)
    ([sample_quote "bitcoin" 1 4325012] ++
     sample_quote "ethereum" 2 250050 :: [sample_quote "ethereum" 3 250050])
    (mkworld empty_db [] []) =
  (inr false, mkworld empty_db [] []).
Proof.
  apply (store_rejects_duplicate_new_id (env_at 100)
           [sample_quote "bitcoin" 1 4325012]
           (sample_quote "ethereum" 2 250050)
           [sample_quote "ethereum" 3 250050]
           (sample_quote "ethereum" 3 250050) empty_db []).
  - left. reflexivity.
  - reflexivity.
  - reflexivity.
Defined.

(** ** Reading: the latest rows *)

Lemma sorted_app_le {A} (R : A -> A -> Prop) a : forall b,
  StronglySorted R (a ++ b) -> forall x y, In x a -> In y b -> R x y.
Proof.
  induction a as [|h a IH]; simpl; intros b Hs x y Hx Hy; [contradiction|].
  inversion Hs as [|? ? Hs' Hall]; subst.
  destruct Hx as [<-|Hx].
  - rewrite Forall_forall in Hall. apply Hall. apply in_or_app. right. exact Hy.
  - eapply IH; eauto.
Qed.

(** X11.  [get_latest_top_10] never raises and changes nothing.  It returns at
    most ten rows, in ascending order of [market_cap_rank], all carrying one
    timestamp, which no stored row exceeds; it returns the empty list when
    [crypto_data] is empty and when the server does not answer. *)
Theorem get_latest_top_10_shape env w :
  exists rows,
    get_latest_top_10 env w = (inr rows, w) /\
    (List.length rows <= 10)%nat /\
    StronglySorted rank_le rows /\
    (forall v, In v rows ->
       latest_timestamp_query (db w) = Some (LatestRow.timestamp v) /\
       Forall (fun r => CryptoData.timestamp r <= LatestRow.timestamp v)
              (crypto_data (db w))) /\
    (crypto_data (db w) = [] \/ db_up env = false -> rows = []).
Proof.
  rewrite get_latest_top_10_run.
  destruct (db_up env) eqn:Hup.
  - destruct (latest_timestamp_query (db w)) as [latest|] eqn:Hq.
    + exists (top_10_query latest (db w)). split; [reflexivity|].
      split; [unfold top_10_query; apply firstn_le_length|].
      split; [unfold top_10_query; apply firstn_sorted, order_by_rank_sorted|].
      split.
      * intros v Hv.
        pose proof (top_10_query_timestamps latest (db w)) as Hts.
        rewrite Forall_forall in Hts. rewrite (Hts v Hv).
        split; [reflexivity|].
        apply (latest_timestamp_query_spec _ _ Hq).
      * intros [E|E]; [|discriminate].
        unfold latest_timestamp_query in Hq. rewrite E in Hq. discriminate.
    + exists []. split; [reflexivity|]. split; [simpl; lia|].
      split; [constructor|]. split; [intros v []|auto].
  - exists []. split; [reflexivity|]. split; [simpl; lia|].
    split; [constructor|]. split; [intros v []|auto].
Qed.

(** X12.  When the latest group holds more rows than ten, the rows that
    [get_latest_top_10] returns are ten of lowest rank: the returned rows
    and the rows left out make up the joined latest group, and no row left
    out has a lower rank than a returned one. *)
Theorem get_latest_top_10_lowest_ranks env w latest :
  db_up env = true ->
  latest_timestamp_query (db w) = Some latest ->
  exists rows rest,
    get_latest_top_10 env w = (inr rows, w) /\
    Permutation (rows ++ rest) (latest_group latest (db w)) /\
    (rest <> [] -> List.length rows = 10%nat) /\
    (forall v u, In v rows -> In u rest ->
       LatestRow.market_cap_rank v <= LatestRow.market_cap_rank u).
Proof.
  intros Hup Hq. rewrite get_latest_top_10_run, Hup, Hq.
  unfold top_10_query. fold (latest_group latest (db w)).
  set (S := order_by_rank (latest_group latest (db w))).
  exists (firstn 10 S), (skipn 10 S). split; [reflexivity|].
  split; [rewrite firstn_skipn; apply order_by_rank_perm|].
  split.
  - intro Hne. apply firstn_length_le.
    destruct (Nat.le_gt_cases 10 (List.length S)) as [H|H]; [exact H|].
    exfalso. apply Hne. apply skipn_all2. lia.
  - intros v u Hv Hu.
    apply (sorted_app_le rank_le (firstn 10 S) (skipn 10 S)); try assumption.
    rewrite firstn_skipn. apply order_by_rank_sorted.
Qed.

(** At the sample data the latest group has twelve rows: ten are returned
    and two are left out. *)
Lemma get_latest_top_10_lowest_ranks_witness :
  exists rows rest,
    get_latest_top_10 (env_at 102) (mkworld db_with_twelve [] []) =
      (inr rows, mkworld db_with_twelve [] []) /\
    Permutation (rows ++ rest)
      (latest_group (at_day 100 0) (db (mkworld db_with_twelve [] []))) /\
    List.length rows = 10%nat /\
    List.length rest = 2%nat /\
    (forall v u, In v rows -> In u rest ->
       LatestRow.market_cap_rank v <= LatestRow.market_cap_rank u).
Proof.
  destruct (get_latest_top_10_lowest_ranks (env_at 102)
              (mkworld db_with_twelve [] []) (at_day 100 0))
    as (rows & rest & Hrun & Hperm & Hten & Hrank).
  - reflexivity.
  - vm_compute. reflexivity.
  - assert (Hlen : (List.length rows + List.length rest = 12)%nat).
    { rewrite <- length_app, (Permutation_length Hperm).
      vm_compute. reflexivity. }
    assert (Hrows : (List.length rows <= 10)%nat).
    { pose proof Hrun as Hrun'. vm_compute in Hrun'. injection Hrun' as E.
      rewrite <- E. simpl. lia. }
    assert (Hrows10 : List.length rows = 10%nat).
    { apply Hten. intro E. rewrite E in Hlen. simpl in Hlen. lia. }
    exists rows, rest.
    split; [exact Hrun|]. split; [exact Hperm|].
    split; [exact Hrows10|]. split; [lia|exact Hrank].
Defined.

(** ** Reading: the last update *)

Lemma newest_update_spec rows : forall best,
  In (newest_update best rows) (best :: rows) /\
  Forall (fun u => DashboardUpdate.update_timestamp u <=
                   DashboardUpdate.update_timestamp (newest_update best rows))
         (best :: rows).
Proof.
  induction rows as [|u rows IH]; intro best; simpl.
  - split; [left; reflexivity|]. constructor; [lia|constructor].
  - destruct (DashboardUpdate.update_timestamp best <?
              DashboardUpdate.update_timestamp u) eqn:E.
    + apply Z.ltb_lt in E. destruct (IH u) as [Hin Hall].
      split; [right; exact Hin|].
      inversion Hall; subst. constructor; [lia|]. constructor; assumption.
    + apply Z.ltb_ge in E. destruct (IH best) as [Hin Hall].
      split; [destruct Hin as [Hin|Hin]; [left|right; right]; assumption|].
      inversion Hall; subst. constructor; [assumption|].
      constructor; [lia|assumption].
Qed.

Lemma get_last_update_run env w :
  get_last_update env w =
  (inr (if db_up env then
          option_map (fun u =>
             LastUpdate.mk (DashboardUpdate.update_timestamp u)
               (DashboardUpdate.status u) (DashboardUpdate.error_message u)
               (DashboardUpdate.email_sent u))
            (last_update_query (db w))
        else None), w).
Proof.
  unfold get_last_update, try_except, bind, select.
  destruct (db_up env); [|reflexivity].
  destruct (last_update_query (db w)); reflexivity.
Qed.

(** X13.  [get_last_update] never raises and changes nothing.  It returns
    [None] exactly when the server does not answer or [dashboard_updates]
    is empty; otherwise it returns the timestamp, status, error message and
    email flag of a stored row whose [update_timestamp] no stored row
    exceeds. *)
Theorem get_last_update_is_newest env w :
  exists res,
    get_last_update env w = (inr res, w) /\
    (res = None <-> db_up env = false \/ dashboard_updates (db w) = []) /\
    (forall lu, res = Some lu ->
       exists u,
         In u (dashboard_updates (db w)) /\
         lu = LastUpdate.mk (DashboardUpdate.update_timestamp u)
                (DashboardUpdate.status u) (DashboardUpdate.error_message u)
                (DashboardUpdate.email_sent u) /\
         Forall (fun u' => DashboardUpdate.update_timestamp u' <=
                           DashboardUpdate.update_timestamp u)
                (dashboard_updates (db w))).
Proof.
  rewrite get_last_update_run. eexists. split; [reflexivity|].
  destruct (db_up env).
  - unfold last_update_query.
    destruct (dashboard_updates (db w)) as [|u rows]; simpl.
    + split; [split; auto|discriminate].
    + split.
      * split; [discriminate|]. intros [H|H]; discriminate.
      * intros lu H. injection H as <-.
        destruct (newest_update_spec rows u) as [Hin Hall].
        exists (newest_update u rows). repeat split; assumption.
  - split; [split; auto|discriminate].
Qed.

Lemma newest_update_last u : forall rows best,
  DashboardUpdate.update_timestamp best < DashboardUpdate.update_timestamp u ->
  Forall (fun x => DashboardUpdate.update_timestamp x <
                   DashboardUpdate.update_timestamp u) rows ->
  newest_update best (rows ++ [u]) = u.
Proof.
  induction rows as [|x rows IH]; simpl; intros best Hb Hall.
  - apply Z.ltb_lt in Hb. rewrite Hb. reflexivity.
  - inversion Hall; subst. apply IH; [|assumption].
    destruct (DashboardUpdate.update_timestamp best <?
              DashboardUpdate.update_timestamp x); assumption.
Qed.

Lemma last_update_query_appended d old u :
  dashboard_updates d = old ++ [u] ->
  Forall (fun x => DashboardUpdate.update_timestamp x <
                   DashboardUpdate.update_timestamp u) old ->
  last_update_query d = Some u.
Proof.
  intros E Hall. unfold last_update_query. rewrite E.
  destruct old as [|x old]; simpl; [reflexivity|].
  inversion Hall; subst. f_equal. apply newest_update_last; assumption.
Qed.

(** X14.  A log entry that is written with a timestamp later than every
    stored one is what [get_last_update] returns next: status, error message
    and email flag as passed to [log_dashboard_update]. *)
Theorem log_then_get_last_update env env' status error_message email_sent
    top_10_data d ob w' :
  log_dashboard_update env status error_message email_sent top_10_data
    (mkworld d [] ob) = (inr true, w') ->
  Forall (fun u => DashboardUpdate.update_timestamp u < flush_utcnow env)
         (dashboard_updates d) ->
  db_up env' = true ->
  get_last_update env' w' =
    (inr (Some (LastUpdate.mk (flush_utcnow env) status error_message
                  email_sent)), w').
Proof.
  intros Hlog Hold Hup. rewrite log_dashboard_update_run in Hlog.
  destruct (db_up env && (String.length status <=? 20)%nat); [|discriminate].
  injection Hlog as <-.
  rewrite get_last_update_run, Hup.
  rewrite (last_update_query_appended _ (dashboard_updates d)
             (DashboardUpdate.mk (flush_utcnow env) status error_message
                email_sent
                (if truthy_list top_10_data
                 then option_map json_dumps top_10_data else None)));
    [reflexivity|reflexivity|exact Hold].
Qed.

Lemma log_then_get_last_update_witness :
  get_last_update (env_at 102)
    (snd (log_dashboard_update (env_at 101) "failed" (Some store_failed_msg)
            false None (mkworld db_after_first_run [] []))) =
  (inr (Some (LastUpdate.mk (at_day 101 250000) "failed"
                (Some store_failed_msg) false)),
   snd (log_dashboard_update (env_at 101) "failed" (Some store_failed_msg)
          false None (mkworld db_after_first_run [] []))).
Proof.
  refine (log_then_get_last_update (env_at 101) (env_at 102) "failed"
            (Some store_failed_msg) false None db_after_first_run [] _ _ _ _).
  - vm_compute. reflexivity.
  - apply (Forall_of_forallb
             (fun u => DashboardUpdate.update_timestamp u <?
                       flush_utcnow (env_at 101)));
      [intros u; apply Z.ltb_lt|vm_compute; reflexivity].
  - reflexivity.
Defined.

(** X15.  After a run of [lambda_handler] whose startup went through and whose
    log entry was taken with a timestamp later than every stored one,
    [get_last_update] reports that run: status "success", no error message
    and the notifier's result when the run replied 200; status "failed", an
    error message and [email_sent = False] when it replied 500. *)
Theorem run_then_get_last_update env env' d ob :
  startup env = inr tt ->
  db_up (log_env env) = true ->
  Forall (fun u => DashboardUpdate.update_timestamp u <
                   flush_utcnow (log_env env))
         (dashboard_updates d) ->
  db_up env' = true ->
  exists r w' lu,
    lambda_handler env (mkworld d [] ob) = (inr r, w') /\
    get_last_update env' w' = (inr (Some lu), w') /\
    LastUpdate.timestamp lu = flush_utcnow (log_env env) /\
    (statusCode r = 200 ->
     LastUpdate.status lu = "success" /\
     LastUpdate.error_message lu = None /\
     LastUpdate.email_sent lu = daily_email_sent env) /\
    (statusCode r = 500 ->
     LastUpdate.status lu = "failed" /\
     LastUpdate.error_message lu <> None /\
     LastUpdate.email_sent lu = false).
Proof.
  intros Hs Hup Hold Hup'.
  destruct (lambda_handler_cases env d ob)
    as [(e & Hs' & _)|[(_ & Hf & ->)|[(_ & q & Hq & Hne & Hstore & ->)
       |(_ & q & w1 & Hq & Hne & Hstore & ->)]]].
  - congruence.
  - eexists. eexists. eexists. split; [reflexivity|].
    rewrite get_last_update_run, Hup'. simpl db. unfold logged. rewrite Hup.
    rewrite (last_update_query_appended _ (dashboard_updates d)
               (failed_row env fetch_failed_msg));
      [|reflexivity|exact Hold].
    simpl. split; [reflexivity|]. repeat split; discriminate.
  - eexists. eexists. eexists. split; [reflexivity|].
    rewrite get_last_update_run, Hup'. simpl db. unfold logged. rewrite Hup.
    rewrite (last_update_query_appended _ (dashboard_updates d)
               (failed_row env store_failed_msg));
      [|reflexivity|exact Hold].
    simpl. split; [reflexivity|]. repeat split; discriminate.
  - destruct (store_crypto_data_true _ _ _ _ _ Hstore) as (_ & _ & Hdu & _).
    eexists. eexists. eexists. split; [reflexivity|].
    rewrite get_last_update_run, Hup'. simpl db. unfold logged. rewrite Hup.
    rewrite (last_update_query_appended _ (dashboard_updates d)
               (success_row env (daily_email_sent env)));
      [|simpl; rewrite Hdu; reflexivity|exact Hold].
    simpl. split; [reflexivity|]. repeat split; discriminate.
Qed.

Lemma run_then_get_last_update_witness :
  exists r w' lu,
    lambda_handler second_run
      (mkworld (db world_after_sample_run) []
         (outbox world_after_sample_run)) = (inr r, w') /\
    get_last_update (env_at 739002) w' = (inr (Some lu), w') /\
    LastUpdate.timestamp lu = flush_utcnow (log_env second_run).
Proof.
  destruct (run_then_get_last_update second_run (env_at 739002)
              (db world_after_sample_run) (outbox world_after_sample_run))
    as (r & w' & lu & Hrun & Hget & Hts & _).
  - reflexivity.
  - reflexivity.
  - apply (Forall_of_forallb
             (fun u => DashboardUpdate.update_timestamp u <?
                       flush_utcnow (log_env second_run)));
      [intros u; apply Z.ltb_lt|vm_compute; reflexivity].
  - reflexivity.
  - exists r, w', lu. split; [exact Hrun|]. split; [exact Hget|exact Hts].
Defined.

(** ** Reading: the history of one currency *)

Lemma insert_by_timestamp_perm x l :
  Permutation (insert_by_timestamp x l) (x :: l).
Proof.
  induction l as [|y l IH]; simpl; [reflexivity|].
  destruct (CryptoData.timestamp x <=? CryptoData.timestamp y).
  - reflexivity.
  - rewrite IH. apply perm_swap.
Qed.

Lemma order_by_timestamp_perm l : Permutation (order_by_timestamp l) l.
Proof.
  induction l as [|x l IH]; simpl; [reflexivity|].
  rewrite insert_by_timestamp_perm. constructor. exact IH.
Qed.

Lemma insert_by_timestamp_sorted x l :
  StronglySorted timestamp_le l ->
  StronglySorted timestamp_le (insert_by_timestamp x l).
Proof.
  induction 1 as [|y l Hl IH Hy]; simpl.
  - constructor; constructor.
  - destruct (CryptoData.timestamp x <=? CryptoData.timestamp y) eqn:E.
    + apply Z.leb_le in E. constructor.
      * constructor; assumption.
      * constructor; [exact E|].
        eapply Forall_impl; [|exact Hy]. unfold timestamp_le. intros; lia.
    + apply Z.leb_gt in E. constructor; [exact IH|].
      eapply Permutation_Forall; [symmetry; apply insert_by_timestamp_perm|].
      constructor; [unfold timestamp_le; lia|exact Hy].
Qed.

Lemma order_by_timestamp_sorted l :
  StronglySorted timestamp_le (order_by_timestamp l).
Proof.
  induction l as [|x l IH]; simpl; [constructor|].
  apply insert_by_timestamp_sorted. exact IH.
Qed.

(** [get_historical_data], run. *)
Lemma get_historical_data_run env crypto_id days w :
  get_historical_data env crypto_id days w =
  let start_date := utcnow env - days * usec_per_day in
  (inr (if (- 999999999 <=? days) && (days <=? 999999999) &&
           ((0 <=? start_date) && (start_date <=? datetime_max)) && db_up env
        then map history_point (history_query crypto_id start_date (db w))
        else []), w).
Proof.
  unfold get_historical_data, try_except, bind, lift, select,
    timedelta_days, datetime_sub.
  destruct ((- 999999999 <=? days) && (days <=? 999999999));
    cbn [bindE andb]; [|reflexivity].
  destruct ((0 <=? utcnow env - days * usec_per_day) &&
            (utcnow env - days * usec_per_day <=? datetime_max));
    cbn [andb]; [|reflexivity].
  destruct (db_up env); reflexivity.
Qed.

(** X16.  With the server answering and the start of the window
    [now - days] a [datetime], [get_historical_data] returns one point per
    stored row of the asked currency whose timestamp is not earlier than
    that start, and no other, in ascending order of timestamp. *)
Theorem get_historical_data_window env crypto_id days w start_date :
  db_up env = true ->
  - 999999999 <= days <= 999999999 ->
  start_date = utcnow env - days * usec_per_day ->
  0 <= start_date <= datetime_max ->
  exists rows,
    get_historical_data env crypto_id days w =
      (inr (map history_point rows), w) /\
    StronglySorted timestamp_le rows /\
    Permutation rows
      (filter (in_window crypto_id start_date) (crypto_data (db w))) /\
    (forall r, In r rows <->
       In r (crypto_data (db w)) /\
       CryptoData.crypto_id r = crypto_id /\
       start_date <= CryptoData.timestamp r).
Proof.
  intros Hup Hdays Hstart Hrange.
  rewrite get_historical_data_run. cbv zeta. rewrite <- Hstart, Hup.
  assert (E : (- 999999999 <=? days) && (days <=? 999999999) &&
              ((0 <=? start_date) && (start_date <=? datetime_max)) && true
              = true).
  { rewrite !andb_true_iff. repeat split; apply Z.leb_le; lia. }
  rewrite E. exists (history_query crypto_id start_date (db w)).
  split; [reflexivity|]. unfold history_query.
  fold (in_window crypto_id start_date).
  split; [apply order_by_timestamp_sorted|].
  split; [apply order_by_timestamp_perm|].
  intro r. split.
  - intro H. apply (Permutation_in _ (order_by_timestamp_perm _)) in H.
    apply filter_In in H. destruct H as [Hin Hw].
    unfold in_window in Hw. apply andb_true_iff in Hw.
    destruct Hw as [Hid Hts]. apply String.eqb_eq in Hid.
    apply Z.leb_le in Hts. auto.
  - intros (Hin & Hid & Hts).
    apply (Permutation_in _ (Permutation_sym (order_by_timestamp_perm _))).
    apply filter_In. split; [exact Hin|].
    unfold in_window. apply andb_true_iff. split.
    + apply String.eqb_eq. exact Hid.
    + apply Z.leb_le. exact Hts.
Qed.

Lemma get_historical_data_window_witness :
  exists rows,
    get_historical_data (env_at 105) "bitcoin" 7
      (mkworld db_after_first_run [] []) =
      (inr (map history_point rows), mkworld db_after_first_run [] []) /\
    StronglySorted timestamp_le rows /\
    Permutation rows
      (filter (in_window "bitcoin" (at_day 98 0))
         (crypto_data (db (mkworld db_after_first_run [] [])))) /\
    (forall r, In r rows <->
       In r (crypto_data (db (mkworld db_after_first_run [] []))) /\
       CryptoData.crypto_id r = "bitcoin" /\
       at_day 98 0 <= CryptoData.timestamp r).
Proof.
  refine (get_historical_data_window (env_at 105) "bitcoin" 7
            (mkworld db_after_first_run [] []) (at_day 98 0) _ _ _ _).
  - reflexivity.
  - lia.
  - vm_compute. reflexivity.
  - vm_compute. split; discriminate.
Defined.

(** X17.  Asking for more days of history than lie between [datetime.min] and
    now does not return the whole history: the date arithmetic overflows,
    the exception is swallowed and [get_historical_data] returns the empty
    list. *)
Theorem get_historical_data_before_calendar env crypto_id days w :
  utcnow env - days * usec_per_day < 0 ->
  get_historical_data env crypto_id days w = (inr [], w).
Proof.
  intro Hneg. rewrite get_historical_data_run. cbv zeta.
  assert (E : (0 <=? utcnow env - days * usec_per_day) = false).
  { apply Z.leb_gt. exact Hneg. }
  rewrite E, andb_false_l, andb_false_r, andb_false_l. reflexivity.
Qed.

Lemma get_historical_data_before_calendar_witness :
  get_historical_data (env_at 739000) "bitcoin" 1000000
    (mkworld (db_aged 739000) [] []) =
  (inr [], mkworld (db_aged 739000) [] []).
Proof.
  apply (get_historical_data_before_calendar (env_at 739000) "bitcoin"
           1000000 (mkworld (db_aged 739000) [] [])).
  vm_compute. reflexivity.
Defined.

(** X18.  A quote that was just stored shows in the history of its currency:
    after a successful [store_crypto_data], [get_historical_data] for the
    quote's id over a window that reaches back to the store's timestamp
    returns the point of the row stored for that quote. *)
Theorem store_then_get_historical_data env env' crypto_list d ob w' q days
    start_date :
  store_crypto_data env crypto_list (mkworld d [] ob) = (inr true, w') ->
  In q crypto_list ->
  db_up env' = true ->
  - 999999999 <= days <= 999999999 ->
  start_date = utcnow env' - days * usec_per_day ->
  0 <= start_date <= datetime_max ->
  start_date <= utcnow env ->
  exists row points,
    stored_as (utcnow env) q row /\
    get_historical_data env' (Quote.id q) days w' = (inr points, w') /\
    In (history_point row) points.
Proof.
  intros Hstore Hq Hup Hdays Hstart Hrange Hreach.
  destruct (store_crypto_data_true _ _ _ _ _ Hstore)
    as (_ & _ & _ & _ & _ & rows & Edata & Hrows).
  destruct (Forall2_In_l _ _ _ _ Hrows Hq) as (row & Hrow & Hs).
  destruct (stored_as_fields _ _ _ Hs) as (Eid & Ets & _).
  exists row. eexists. split; [exact Hs|].
  rewrite get_historical_data_run. cbv zeta. rewrite <- Hstart, Hup.
  assert (E : (- 999999999 <=? days) && (days <=? 999999999) &&
              ((0 <=? start_date) && (start_date <=? datetime_max)) && true
              = true).
  { rewrite !andb_true_iff. repeat split; apply Z.leb_le; lia. }
  rewrite E. split; [reflexivity|].
  apply in_map. unfold history_query.
  apply (Permutation_in _ (Permutation_sym (order_by_timestamp_perm _))).
  apply filter_In. split.
  - rewrite Edata. apply in_or_app. right. exact Hrow.
  - apply andb_true_iff. split.
    + apply String.eqb_eq. exact Eid.
    + apply Z.leb_le. lia.
Qed.

Lemma store_then_get_historical_data_witness :
  exists row points,
    stored_as (utcnow (env_at 101)) (sample_quote "bitcoin" 1 4325012) row /\
    get_historical_data (env_at 105) (Quote.id (sample_quote "bitcoin" 1 4325012))
      7 (snd (store_crypto_data (env_at 101) sample_batch
                (mkworld db_after_first_run [] []))) =
      (inr points,
       snd (store_crypto_data (env_at 101) sample_batch
              (mkworld db_after_first_run [] []))) /\
    In (history_point row) points.
Proof.
  refine (store_then_get_historical_data (env_at 101) (env_at 105)
            sample_batch db_after_first_run [] _
            (sample_quote "bitcoin" 1 4325012) 7 (at_day 98 0)
            _ _ _ _ _ _ _).
  - vm_compute. reflexivity.
  - right. left. reflexivity.
  - reflexivity.
  - lia.
  - vm_compute. reflexivity.
  - vm_compute. split; discriminate.
  - vm_compute. discriminate.
Defined.

(** ** The purge and the dashboard *)

Lemma filter_filter_implied {A} (f g : A -> bool) l :
  (forall x, f x = true -> g x = true) ->
  filter f (filter g l) = filter f l.
Proof.
  intro H. induction l as [|x l IH]; simpl; [reflexivity|].
  destruct (g x) eqn:G; simpl.
  - rewrite IH. reflexivity.
  - destruct (f x) eqn:F; [|exact IH].
    rewrite (H x F) in G. discriminate.
Qed.

Lemma kept_data_latest cutoff latest d :
  latest_timestamp_query d = Some latest ->
  cutoff <= latest ->
  latest_timestamp_query
    (mkdb (cryptocurrencies d) (kept_data cutoff (crypto_data d))
       (kept_updates cutoff (dashboard_updates d))) = Some latest /\
  filter (fun r => CryptoData.timestamp r =? latest)
    (kept_data cutoff (crypto_data d)) =
  filter (fun r => CryptoData.timestamp r =? latest) (crypto_data d).
Proof.
  intros Hq Hle.
  destruct (latest_timestamp_query_spec _ _ Hq) as [Hall Hex].
  split.
  - apply latest_timestamp_query_intro; simpl.
    + apply Forall_forall. intros r Hr. apply filter_In in Hr.
      rewrite Forall_forall in Hall. apply Hall. tauto.
    + apply Exists_exists in Hex. destruct Hex as (r & Hr & Er).
      apply Exists_exists. exists r. split; [|exact Er].
      apply filter_In. split; [exact Hr|].
      apply negb_true_iff, Z.ltb_ge. lia.
  - apply filter_filter_implied. intros r Hr. apply Z.eqb_eq in Hr.
    apply negb_true_iff, Z.ltb_ge. lia.
Qed.

(** X19.  A purge whose cutoff is not later than the latest stored timestamp
    does not change what the dashboard shows: whatever its outcome,
    [get_latest_top_10] answers after [cleanup_old_data] as it did
    before. *)
Theorem cleanup_keeps_latest_top_10 env days_to_keep d ob latest :
  latest_timestamp_query d = Some latest ->
  utcnow env - days_to_keep * usec_per_day <= latest ->
  forall env',
    fst (get_latest_top_10 env'
           (snd (cleanup_old_data env days_to_keep (mkworld d [] ob)))) =
    fst (get_latest_top_10 env' (mkworld d [] ob)).
Proof.
  intros Hq Hle env'. rewrite cleanup_old_data_run. cbv zeta.
  destruct ((- 999999999 <=? days_to_keep) && (days_to_keep <=? 999999999) &&
            ((0 <=? utcnow env - days_to_keep * usec_per_day) &&
             (utcnow env - days_to_keep * usec_per_day <=? datetime_max)) &&
            db_up env); [|reflexivity].
  destruct (kept_data_latest _ _ _ Hq Hle) as [Hq' Hfilter].
  rewrite !get_latest_top_10_run. simpl snd. simpl db.
  rewrite Hq', Hq. destruct (db_up env'); [|reflexivity].
  simpl fst. unfold top_10_query. simpl cryptocurrencies.
  simpl crypto_data. rewrite Hfilter. reflexivity.
Qed.

Lemma cleanup_keeps_latest_top_10_witness :
  fst (get_latest_top_10 (env_at 739001)
         (snd (cleanup_old_data (env_at 739000) 30
                 (mkworld (db_aged 739000) [] [])))) =
  fst (get_latest_top_10 (env_at 739001) (mkworld (db_aged 739000) [] [])).
Proof.
  refine (cleanup_keeps_latest_top_10 (env_at 739000) 30 (db_aged 739000) []
            (at_day 738995 0) _ _ (env_at 739001)).
  - vm_compute. reflexivity.
  - vm_compute. discriminate.
Defined.

(** ** The fetchers *)

Lemma fetched_none api :
  fetched api = None <->
  api = RequestFailed \/
  exists status_code body,
    api = Response status_code body /\
    (raise_for_status status_code = inl RequestException \/
     body = NotJson \/ body = OffSchema).
Proof.
  unfold fetched, raise_for_status.
  destruct api as [|status_code body].
  - split; [auto|reflexivity].
  - destruct ((400 <=? status_code) && (status_code <? 600)) eqn:E.
    + split.
      * intros _. right. exists status_code, body. rewrite E.
        split; [reflexivity|left; reflexivity].
      * destruct body; reflexivity.
    + destruct body as [| |coins].
      * split; [|reflexivity]. intros _. right. exists status_code, NotJson.
        split; [reflexivity|right; left; reflexivity].
      * split; [|reflexivity]. intros _. right. exists status_code, OffSchema.
        split; [reflexivity|right; right; reflexivity].
      * split; [discriminate|].
        intros [H|(sc & b & H & [H'|[H'|H']])]; try discriminate;
          injection H as <- <-; try discriminate.
        rewrite E in H'. discriminate.
Qed.

(** X20.  [fetch_top_10_cryptocurrencies] never raises and touches nothing,
    and its result is all or nothing: [None] exactly when the request
    failed, the status is an error status, the body is not JSON or the
    transformation raises on it; otherwise one quote per coin of the
    response. *)
Theorem fetch_all_or_nothing api w :
  exists res,
    fetch_top_10_cryptocurrencies api w = (inr res, w) /\
    (res = None <->
     api = RequestFailed \/
     exists status_code body,
       api = Response status_code body /\
       (raise_for_status status_code = inl RequestException \/
        body = NotJson \/ body = OffSchema)) /\
    (forall quotes, res = Some quotes ->
       exists status_code coins,
         api = Response status_code (CoinArray coins) /\
         raise_for_status status_code = inr tt /\
         quotes = map transform_coin coins).
Proof.
  rewrite fetch_top_10_cryptocurrencies_run.
  exists (fetched api). split; [reflexivity|].
  split.
  - apply fetched_none.
  - intros quotes H. apply fetched_some. exact H.
Qed.

(** X21.  [get_crypto_by_ids] never raises and touches nothing.  On an
    empty list of ids it returns the empty list without asking the
    endpoint.  On a non-empty list it is all or nothing on the endpoint's
    answer to the comma-joined ids: [None] exactly when the request failed,
    the status is an error status, the body is not JSON or the
    transformation raises on it; otherwise one quote per coin of the
    response. *)
Theorem get_crypto_by_ids_spec api crypto_ids w :
  exists res,
    get_crypto_by_ids api crypto_ids w = (inr res, w) /\
    (crypto_ids = [] -> res = Some []) /\
    (crypto_ids <> [] ->
     (res = None <->
      api (ids_param crypto_ids) = RequestFailed \/
      exists status_code body,
        api (ids_param crypto_ids) = Response status_code body /\
        (raise_for_status status_code = inl RequestException \/
         body = NotJson \/ body = OffSchema)) /\
     (forall quotes, res = Some quotes ->
        exists status_code coins,
          api (ids_param crypto_ids) = Response status_code (CoinArray coins) /\
          raise_for_status status_code = inr tt /\
          quotes = map transform_coin coins)).
Proof.
  destruct crypto_ids as [|i ids].
  - exists (Some []). split; [reflexivity|]. split; [reflexivity|].
    intro H. congruence.
  - exists (fetched (api (ids_param (i :: ids)))).
    split.
    + change (get_crypto_by_ids api (i :: ids) w)
        with (fetch_top_10_cryptocurrencies (api (ids_param (i :: ids))) w).
      apply fetch_top_10_cryptocurrencies_run.
    + split; [discriminate|]. intros _. split.
      * apply fetched_none.
      * intros quotes H. apply fetched_some. exact H.
Qed.

Lemma upper_ascii_idempotent c : upper_ascii (upper_ascii c) = upper_ascii c.
Proof.
  assert (H : upper_ascii c = c \/
              (upper_ascii c = ascii_of_nat (nat_of_ascii c - 32) /\
               (97 <= nat_of_ascii c <= 122)%nat)).
  { unfold upper_ascii.
    destruct ((97 <=? nat_of_ascii c) && (nat_of_ascii c <=? 122))%nat eqn:E;
      [right|left; reflexivity].
    apply andb_true_iff in E. destruct E as [E1 E2].
    apply Nat.leb_le in E1. apply Nat.leb_le in E2. auto. }
  destruct H as [H|[H Hr]].
  - rewrite H. exact H.
  - rewrite H. unfold upper_ascii. rewrite nat_ascii_embedding; [|lia].
    assert (E : (97 <=? nat_of_ascii c - 32)%nat = false).
    { apply Nat.leb_gt. lia. }
    rewrite E. reflexivity.
Qed.

Lemma upper_idempotent s : upper (upper s) = upper s.
Proof.
  induction s as [|c s IH]; simpl; [reflexivity|].
  rewrite upper_ascii_idempotent, IH. reflexivity.
Qed.

Lemma upper_ascii_cases c :
  (upper_ascii c = c /\
   ((97 <=? nat_of_ascii c) && (nat_of_ascii c <=? 122))%nat = false) \/
  (nat_of_ascii (upper_ascii c) = (nat_of_ascii c - 32)%nat /\
   (97 <= nat_of_ascii c <= 122)%nat).
Proof.
  unfold upper_ascii.
  destruct ((97 <=? nat_of_ascii c) && (nat_of_ascii c <=? 122))%nat eqn:E;
    [right|left; split; reflexivity].
  apply andb_true_iff in E. destruct E as [E1 E2].
  apply Nat.leb_le in E1. apply Nat.leb_le in E2.
  split; [|lia]. apply nat_ascii_embedding. lia.
Qed.

Lemma upper_length s : String.length (upper s) = String.length s.
Proof.
  induction s as [|c s IH]; simpl; [reflexivity|]. rewrite IH. reflexivity.
Qed.

Lemma upper_has_no_lower s : has_lower (upper s) = false.
Proof.
  unfold has_lower. induction s as [|c s IH]; [reflexivity|].
  cbn [upper list_ascii_of_string existsb]. rewrite IH, orb_false_r.
  destruct (upper_ascii_cases c) as [[-> E]|[E Hr]]; [exact E|].
  rewrite E. apply andb_false_iff. left. apply Nat.leb_gt. lia.
Qed.

Lemma upper_is_ascii s : is_ascii s = true -> is_ascii (upper s) = true.
Proof.
  unfold is_ascii. induction s as [|c s IH]; [reflexivity|].
  cbn [upper list_ascii_of_string forallb].
  intro H. apply andb_true_iff in H. destruct H as [Hc Hs].
  rewrite (IH Hs), andb_true_r.
  destruct (upper_ascii_cases c) as [[-> _]|[E Hr]]; [exact Hc|].
  rewrite E. apply Nat.ltb_lt. lia.
Qed.

(** X22.  For every coin of the response whose symbol is ASCII text (on which
    [upper] is what [str.upper()] does), the quote that
    [fetch_top_10_cryptocurrencies] returns for it carries an upper-case
    symbol: ASCII text with no letter a to z in it, which upper-casing
    again leaves as it is, of the length of the coin's symbol. *)
Theorem fetched_symbols_upper_case api w quotes :
  fst (fetch_top_10_cryptocurrencies api w) = inr (Some quotes) ->
  exists status_code coins,
    api = Response status_code (CoinArray coins) /\
    Forall2 (fun c q =>
               is_ascii (Coin.symbol c) = true ->
               is_ascii (Quote.symbol q) = true /\
               has_lower (Quote.symbol q) = false /\
               upper (Quote.symbol q) = Quote.symbol q /\
               String.length (Quote.symbol q) = String.length (Coin.symbol c))
            coins quotes.
Proof.
  rewrite fetch_top_10_cryptocurrencies_run. simpl. intro H.
  injection H as H. destruct (fetched_some _ _ H) as (sc & coins & -> & _ & ->).
  exists sc, coins. split; [reflexivity|]. clear H.
  induction coins as [|c coins IH]; simpl; [constructor|].
  constructor; [|exact IH].
  simpl. intro Hc.
  split; [apply upper_is_ascii; exact Hc|].
  split; [apply upper_has_no_lower|].
  split; [apply upper_idempotent|apply upper_length].
Qed.

(** At the sample response, each of the ten symbols is ASCII text. *)
Lemma fetched_symbols_upper_case_witness :
  forallb (fun c => is_ascii (Coin.symbol c)) sample_coins = true /\
  exists status_code coins,
    Response 200 (CoinArray sample_coins) =
      Response status_code (CoinArray coins) /\
    Forall2 (fun c q =>
               is_ascii (Coin.symbol c) = true ->
               is_ascii (Quote.symbol q) = true /\
               has_lower (Quote.symbol q) = false /\
               upper (Quote.symbol q) = Quote.symbol q /\
               String.length (Quote.symbol q) = String.length (Coin.symbol c))
            coins (map transform_coin sample_coins).
Proof.
  split; [vm_compute; reflexivity|].
  refine (fetched_symbols_upper_case (Response 200 (CoinArray sample_coins))
            (start empty_db) (map transform_coin sample_coins) _).
  reflexivity.
Defined.

(** ** The routes *)

Lemma api_refresh_run env d ob :
  api_refresh env (mkworld d [] ob) =
  match fetched (refresh_api env) with
  | Some (q :: qs) =>
      (inr (RefreshSuccess (refresh_utcnow env), 200),
       snd (store_crypto_data (refresh_store_env env) (q :: qs)
              (mkworld d [] ob)))
  | _ => (inr (RefreshFetchError, 500), mkworld d [] ob)
  end.
Proof.
  unfold api_refresh, try_except, bind.
  rewrite fetch_top_10_cryptocurrencies_run.
  destruct (fetched (refresh_api env)) as [[|q qs]|]; try reflexivity.
  change (truthy_list (Some (q :: qs))) with true. cbv beta iota.
  destruct (store_crypto_data_total (refresh_store_env env) (q :: qs) d ob)
    as (b & w' & Hstore & _).
  rewrite Hstore. reflexivity.
Qed.

(** X23.  The manual refresh ignores the result of the store: when the fetch
    returned a non-empty list and [store_crypto_data] returned [False],
    [/api/refresh] still answers 200 "Data refreshed successfully", with
    nothing stored. *)
Theorem api_refresh_reports_success_on_store_failure env d ob quotes :
  fst (fetch_top_10_cryptocurrencies (refresh_api env) (mkworld d [] ob)) =
    inr (Some quotes) ->
  truthy_list (Some quotes) = true ->
  fst (store_crypto_data (refresh_store_env env) quotes (mkworld d [] ob)) =
    inr false ->
  api_refresh env (mkworld d [] ob) =
    (inr (RefreshSuccess (refresh_utcnow env), 200), mkworld d [] ob).
Proof.
  intros Hfetch Htruthy Hstore.
  rewrite fetch_top_10_cryptocurrencies_run in Hfetch. simpl in Hfetch.
  injection Hfetch as Hf.
  rewrite api_refresh_run, Hf.
  destruct quotes as [|q qs]; [discriminate|].
  destruct (store_crypto_data_total (refresh_store_env env) (q :: qs) d ob)
    as (b & w' & Hrun & Hb).
  rewrite Hrun in Hstore |- *. simpl in Hstore. injection Hstore as ->.
  rewrite (Hb eq_refl). reflexivity.
Qed.

Lemma api_refresh_reports_success_on_store_failure_witness :
  api_refresh
    (mkrefresh (Response 200 (CoinArray coins_with_null_price)) (env_at 101)
       (at_day 101 700000))
    (mkworld db_after_first_run [] []) =
  (inr (RefreshSuccess
          (refresh_utcnow
             (mkrefresh (Response 200 (CoinArray coins_with_null_price))
                (env_at 101) (at_day 101 700000))), 200),
   mkworld db_after_first_run [] []).
Proof.
  refine (api_refresh_reports_success_on_store_failure
            (mkrefresh (Response 200 (CoinArray coins_with_null_price))
               (env_at 101) (at_day 101 700000))
            db_after_first_run [] (map transform_coin coins_with_null_price)
            _ _ _).
  - reflexivity.
  - reflexivity.
  - vm_compute. reflexivity.
Defined.

(** X24.  [/api/refresh] never raises, answers 200 or 500 (500 exactly when
    the fetch result is falsy), writes no [DashboardUpdate] row and requests
    no notification; it leaves the session empty and only appends to
    [crypto_data]. *)
Theorem api_refresh_effects env d ob :
  exists body code w' rows,
    api_refresh env (mkworld d [] ob) = (inr (body, code), w') /\
    (code = 200 \/ code = 500) /\
    (code = 500 <->
     truthy_list
       (match fst (fetch_top_10_cryptocurrencies (refresh_api env)
                     (mkworld d [] ob)) with
        | inr v => v
        | inl _ => None
        end) = false) /\
    tx w' = [] /\ outbox w' = ob /\
    dashboard_updates (db w') = dashboard_updates d /\
    crypto_data (db w') = crypto_data d ++ rows.
Proof.
  rewrite api_refresh_run, fetch_top_10_cryptocurrencies_run. simpl fst.
  destruct (fetched (refresh_api env)) as [[|q qs]|].
  - exists RefreshFetchError, 500, (mkworld d [] ob), [].
    simpl. rewrite app_nil_r. repeat split; auto.
  - destruct (store_crypto_data_total (refresh_store_env env) (q :: qs) d ob)
      as (b & w' & Hstore & Hb).
    rewrite Hstore. simpl snd. destruct b.
    + destruct (store_crypto_data_true _ _ _ _ _ Hstore)
        as (Htx & Hob & Hdu & _ & _ & rows & Edata & _).
      exists (RefreshSuccess (refresh_utcnow env)), 200, w', rows.
      repeat split; auto; discriminate.
    + rewrite (Hb eq_refl).
      exists (RefreshSuccess (refresh_utcnow env)), 200, (mkworld d [] ob), [].
      simpl. rewrite app_nil_r. repeat split; auto; discriminate.
  - exists RefreshFetchError, 500, (mkworld d [] ob), [].
    simpl. rewrite app_nil_r. repeat split; auto.
Qed.

(** X25.  [/api/crypto-data] always answers 200 with status "success": its
    data are the rows of [get_latest_top_10], formatted, in the same order;
    with the server away or no row stored it answers success with empty
    data, not an error. *)
Theorem api_crypto_data_always_succeeds env w :
  exists rows,
    get_latest_top_10 env w = (inr rows, w) /\
    api_crypto_data env w =
      (inr (CryptoDataSuccess (map format_entry rows), 200), w) /\
    map CryptoEntry.id (map format_entry rows) =
      map LatestRow.crypto_id rows /\
    map CryptoEntry.rank (map format_entry rows) =
      map LatestRow.market_cap_rank rows /\
    (db_up env = false \/ crypto_data (db w) = [] -> rows = []).
Proof.
  unfold api_crypto_data, try_except, bind.
  rewrite get_latest_top_10_run.
  destruct (db_up env) eqn:Hup.
  - destruct (latest_timestamp_query (db w)) as [latest|] eqn:Hq.
    + exists (top_10_query latest (db w)).
      split; [reflexivity|]. split; [reflexivity|].
      rewrite !map_map. split; [reflexivity|]. split; [reflexivity|].
      intros [E|E]; [discriminate|].
      unfold latest_timestamp_query in Hq. rewrite E in Hq. discriminate.
    + exists []. repeat split.
  - exists []. repeat split.
Qed.
